(** * Settings resolution and datasource payload construction

    A shallow embedding of [backend/settings.py]: the seven datasource
    settings classes, the model and search settings groups they read
    through the back-reference to the root, and the root validator
    [set_datasource_settings] that picks the active datasource.

    Conventions.
    - A pydantic model is a record; a method that assigns to [self]
      returns the updated record (explicit state passing).
    - A Python exception is the [Raise] constructor of [result]; the
      exception class is kept, because the root only catches
      [ValidationError].
    - A Python [dict] handed to the completion client is a [gmap] from
      keys to [value]s at the top level of a dump, and an ordered
      association list ([VDict]) where the source writes a dict literal.
    - The environment (process environment merged with the dotenv file)
      is a [gmap] from variable names, written in upper case, to their
      raw text.  pydantic-settings matches names case-insensitively; the
      model fixes the upper-case spelling.
    - The UI and promptflow groups, and the sampling fields of the model
      group, take no part in datasource resolution and are left out of
      the records. *)

From stdpp Require Import gmap strings list fin_maps.
From Stdlib Require Import ZArith Ascii.

Local Open Scope string_scope.
Local Open Scope Z_scope.

(** ** Values, exceptions, logging *)

(** What [model_dump] produces and what a JSON decoder returns. *)
#[warnings="-register-all"]
Inductive value : Type :=
| VNone
| VBool (b : bool)
| VInt (z : Z)
| VStr (s : string)
| VList (l : list value)
| VDict (l : list (string * value)).

Definition of_opt_str (o : option string) : value :=
  match o with Some s => VStr s | None => VNone end.

Definition of_opt_int (o : option Z) : value :=
  match o with Some z => VInt z | None => VNone end.

Definition of_opt_strs (o : option (list string)) : value :=
  match o with Some l => VList (VStr <$> l) | None => VNone end.

Definition of_opt_dict (o : option (list (string * value))) : value :=
  match o with Some d => VDict d | None => VNone end.

(** The exception classes the module raises.
    [ValidationError] carries the offending variable and pydantic's
    message; pydantic reports every offending field at once, the model
    keeps the first in declaration order. *)
Inductive exn : Type :=
| ValidationError (loc msg : string)
| ValueError (msg : string)
| TypeError (msg : string).

Inductive result (A : Type) : Type :=
| Ok (a : A)
| Raise (e : exn).
Arguments Ok {A} a.
Arguments Raise {A} e.

Definition rbind {A B} (m : result A) (f : A -> result B) : result B :=
  match m with Ok a => f a | Raise e => Raise e end.

#[global] Instance result_bind : MBind result := fun A B f m => rbind m f.
#[global] Instance result_ret : MRet result := @Ok.

Definition is_ok {A} (r : result A) : bool :=
  match r with Ok _ => true | Raise _ => false end.

Definition is_validation_error (e : exn) : bool :=
  match e with ValidationError _ _ => true | _ => false end.

Inductive log_record : Type :=
| LogDebug (msg : string)
| LogWarning (msg : string)
| LogWarningErrors (e : exn).

(** ** Python truthiness *)

Definition nonempty (s : string) : bool :=
  match s with EmptyString => false | _ => true end.

(** [if x:] for an [Optional[str]]. *)
Definition truthy (o : option string) : bool :=
  match o with Some s => nonempty s | None => false end.

(** The text of an [Optional[str]] inside an f-string, read where the
    source has already tested it to be set. *)
Definition text (o : option string) : string := default "" o.

(** [if x:] for an [Optional[int]]. *)
Definition truthy_int (o : option Z) : bool :=
  match o with Some z => negb (z =? 0) | None => false end.

(** ** External collaborators

    [parse_multi_columns] and [generateFilterString] live in
    [backend.utils]; the JSON decoder and the scalar coercions belong to
    the standard library and to pydantic.  They are taken as parameters. *)
Class Collaborators : Type := {
  parse_multi_columns : string -> list string;
  generateFilterString : string -> string;
  json_loads : string -> option value;
  str_to_int : string -> option Z;
  str_to_bool : string -> option bool
}.

(** ** Reading fields from the environment *)

Section Fields.
Context `{Collaborators}.
Variable env : gmap string string.

(** [env_ignore_empty=True]: a variable set to the empty text counts
    as absent. *)
Definition env_get (name : string) : option string :=
  match env !! name with
  | Some s => if nonempty s then Some s else None
  | None => None
  end.

(** [x: str] *)
Definition required (name : string) : result string :=
  match env_get name with
  | Some s => Ok s
  | None => Raise (ValidationError name "Field required")
  end.

(** [x: str = d] *)
Definition str_field (name d : string) : string :=
  default d (env_get name).

(** [x: int = d] *)
Definition int_field (name : string) (d : Z) : result Z :=
  match env_get name with
  | None => Ok d
  | Some raw =>
      match str_to_int raw with
      | Some z => Ok z
      | None => Raise (ValidationError name "Input should be a valid integer")
      end
  end.

(** [x: Optional[int] = None] *)
Definition opt_int_field (name : string) : result (option Z) :=
  match env_get name with
  | None => Ok None
  | Some raw =>
      match str_to_int raw with
      | Some z => Ok (Some z)
      | None => Raise (ValidationError name "Input should be a valid integer")
      end
  end.

(** [x: bool = d] *)
Definition bool_field (name : string) (d : bool) : result bool :=
  match env_get name with
  | None => Ok d
  | Some raw =>
      match str_to_bool raw with
      | Some b => Ok b
      | None => Raise (ValidationError name "Input should be a valid boolean")
      end
  end.

(** A field whose annotation is a union with a container type is
    first offered to the JSON decoder; text that does not decode is
    passed on as it is. *)
Definition decode_complex (raw : string) : value :=
  match json_loads raw with Some v => v | None => VStr raw end.

(** The [split_columns] field validator
    ([mode="before"], identical in six classes). *)
Definition split_columns (v : value) : option (list string) :=
  match v with
  | VStr s => if nonempty s then Some (parse_multi_columns s) else None
  | _ => None
  end.

(** [x: Optional[List[str]] = None] guarded by [split_columns]. *)
Definition columns_field (name : string) : option (list string) :=
  match env_get name with
  | None => None
  | Some raw => split_columns (decode_complex raw)
  end.

(** [x: Optional[dict] = None] *)
Definition dict_field (name : string) : result (option (list (string * value))) :=
  match env_get name with
  | None => Ok None
  | Some raw =>
      match decode_complex raw with
      | VDict d => Ok (Some d)
      | VNone => Ok None
      | _ => Raise (ValidationError name "Input should be a valid dictionary")
      end
  end.
End Fields.

(** ** Serialisation

    One declared field of a model: the key it is dumped under (the
    serialization alias if there is one), whether it is declared
    [exclude=True], and its current value. *)
Record field : Type := Field {
  f_key : string;
  f_exclude : bool;
  f_value : value
}.

(** [model_dump(exclude_none=True, by_alias=True)].  A field is left out
    when it is excluded or when its value is [None]; the test is on the
    field, a dict held by a field is emitted as it is. *)
Definition dump_field (f : field) : option (string * value) :=
  if f_exclude f then None
  else match f_value f with
       | VNone => None
       | v => Some (f_key f, v)
       end.

Definition model_dump (fs : list field) : gmap string value :=
  list_to_map (omap dump_field fs).

(** [d.update(other)]: the entries of [other] replace those of [d]. *)
Definition dict_update (d other : gmap string value) : gmap string value :=
  other ∪ d.

(** The descriptor returned by [construct_payload_configuration]. *)
Record payload : Type := Payload {
  type : string;
  parameters : gmap string value
}.

(** A request, as far as this module reads it: its headers. *)
Record Request : Type := { headers : gmap string string }.

(** [x: Literal[...] = d], the admitted texts listed in [allowed]. *)
Definition literal_field `{Collaborators} (env : gmap string string)
    (name : string) (allowed : list string) (d : string) : result string :=
  match env_get env name with
  | None => Ok d
  | Some raw =>
      if bool_decide (raw ∈ allowed) then Ok raw
      else Raise (ValidationError name "Input should be one of the literals")
  end.

(** The dict literal of [set_fields_mapping], the same in six classes:
    all five roles are entered, whatever their columns hold. *)
Definition fields_mapping_of
    (content_columns vector_columns : option (list string))
    (title_column url_column filename_column : option string)
  : list (string * value) :=
  [ ("content_fields", of_opt_strs content_columns);
    ("title_field", of_opt_str title_column);
    ("url_field", of_opt_str url_column);
    ("filepath_field", of_opt_str filename_column);
    ("vector_fields", of_opt_strs vector_columns) ].

(** ** The model settings group *)

Module _AzureOpenAISettings.
Record t : Type := mk {
  model : string;
  key : option string;
  resource : option string;
  endpoint : option string;
  embedding_endpoint : option string;
  embedding_key : option string;
  embedding_name : option string
}.

Definition with_endpoint (e : option string) (self : t) : t :=
  mk (model self) (key self) (resource self) e
     (embedding_endpoint self) (embedding_key self) (embedding_name self).

(** What the last statement of [ensure_endpoint] raises.  The source
    writes [raise ValidationError("...")]; pydantic's [ValidationError]
    has no constructor, so evaluating the call raises this [TypeError]
    and the exception the source names is never built. *)
Definition no_constructor : exn := TypeError "No constructor defined".

(** The [ensure_endpoint] model validator.  The value it returns is
    dropped by the constructor; what counts is the assignment to
    [self.endpoint] and whether it raises. *)
Definition ensure_endpoint (self : t) : result t :=
  if truthy (endpoint self) then Ok self
  else if truthy (resource self) then
    Ok (with_endpoint
          (Some ("https://" +:+ text (resource self) +:+ ".openai.azure.com")) self)
  else
    Raise no_constructor.

(** The constructor.  Validating the declared fields (the required
    model name, bounded and floating-point numbers, tool definitions,
    the token-bias map) is pydantic's work; its outcome is taken as
    given, and the model validator runs on the record it yields. *)
Definition __init__ (validated : result t) : result t :=
  self ← validated;
  ensure_endpoint self.

Definition extract_embedding_dependency (self : t) : option (list (string * value)) :=
  if truthy (embedding_name self) then
    Some [ ("type", VStr "deployment_name");
           ("deployment_name", of_opt_str (embedding_name self)) ]
  else if truthy (embedding_endpoint self) then
    if truthy (embedding_key self) then
      Some [ ("type", VStr "endpoint");
             ("endpoint", of_opt_str (embedding_endpoint self));
             ("authentication",
              VDict [ ("type", VStr "api_key");
                      ("key", of_opt_str (embedding_key self)) ]) ]
    else
      Some [ ("type", VStr "endpoint");
             ("endpoint", of_opt_str (embedding_endpoint self));
             ("authentication",
              VDict [ ("type", VStr "system_assigned_managed_identity") ]) ]
  else None.
End _AzureOpenAISettings.

(** ** The search settings group *)

Module _SearchCommonSettings.
Record t : Type := mk {
  max_search_queries : option Z;
  allow_partial_result : bool;
  include_contexts : option (list string);
  vectorization_dimensions : option Z;
  role_information : string
}.

Definition fields (self : t) : list field :=
  [ Field "max_search_queries" false (of_opt_int (max_search_queries self));
    Field "allow_partial_result" false (VBool (allow_partial_result self));
    Field "include_contexts" false (of_opt_strs (include_contexts self));
    Field "vectorization_dimensions" false (of_opt_int (vectorization_dimensions self));
    Field "role_information" false (VStr (role_information self)) ].

(** The declared defaults. *)
Definition defaults : t :=
  mk None false (Some ["citations"; "intent"]) None
     "You are an AI assistant that helps people find information.".
(** The [split_contexts] field validator ([mode="before"]): text that
    is not empty is split, anything else gives the declared default of
    the field. *)
Definition split_contexts `{Collaborators} (v : value) : option (list string) :=
  match v with
  | VStr s => if nonempty s then Some (parse_multi_columns s)
              else include_contexts defaults
  | _ => include_contexts defaults
  end.

(** Field validation, prefix [SEARCH_]; [role_information] is read under
    its validation alias.  The validator runs on a value that is
    supplied; an absent variable leaves the default. *)
Definition __init__ `{Collaborators} (env : gmap string string) : result t :=
  max_search_queries ← opt_int_field env "SEARCH_MAX_SEARCH_QUERIES";
  allow_partial_result ← bool_field env "SEARCH_ALLOW_PARTIAL_RESULT" false;
  vectorization_dimensions ← opt_int_field env "SEARCH_VECTORIZATION_DIMENSIONS";
  Ok (mk max_search_queries allow_partial_result
         (match env_get env "SEARCH_INCLUDE_CONTEXTS" with
          | None => include_contexts defaults
          | Some raw => split_contexts (decode_complex raw)
          end)
         vectorization_dimensions
         (str_field env "AZURE_OPENAI_SYSTEM_MESSAGE" (role_information defaults))).
End _SearchCommonSettings.

(** ** The datasource settings classes *)

(** [pydantic.alias_generators.to_snake], on the texts the [query_type]
    literal admits. *)
Definition to_snake (s : string) : string :=
  if bool_decide (s = "vectorSimpleHybrid") then "vector_simple_hybrid"
  else if bool_decide (s = "vectorSemanticHybrid") then "vector_semantic_hybrid"
  else s.

Definition missing_token_message : string :=
  "Document-level access control is enabled, but user access token could not be fetched.".

Module _AzureSearchSettings.
Definition _type : string := "azure_search".

Record t : Type := mk {
  top_k : Z;
  strictness : Z;
  enable_in_domain : bool;
  service : string;
  endpoint_suffix : string;
  index : string;
  key : option string;
  use_semantic_search : bool;
  semantic_search_config : string;
  content_columns : option (list string);
  vector_columns : option (list string);
  title_column : option string;
  url_column : option string;
  filename_column : option string;
  query_type : string;
  permitted_groups_column : option string;
  (* Constructed fields *)
  endpoint : option string;
  authentication : option (list (string * value));
  embedding_dependency : option (list (string * value));
  fields_mapping : option (list (string * value));
  filter : option string
}.

(** The record with its assignable fields replaced. *)
Definition assign (self : t) (qt : string) (ep : option string)
    (au ed fm : option (list (string * value))) (fl : option string) : t :=
  mk (top_k self) (strictness self) (enable_in_domain self) (service self)
     (endpoint_suffix self) (index self) (key self) (use_semantic_search self)
     (semantic_search_config self) (content_columns self) (vector_columns self)
     (title_column self) (url_column self) (filename_column self)
     qt (permitted_groups_column self) ep au ed fm fl.

Definition with_query_type qt self :=
  assign self qt (endpoint self) (authentication self)
         (embedding_dependency self) (fields_mapping self) (filter self).
Definition with_endpoint ep self :=
  assign self (query_type self) ep (authentication self)
         (embedding_dependency self) (fields_mapping self) (filter self).
Definition with_authentication au self :=
  assign self (query_type self) (endpoint self) au
         (embedding_dependency self) (fields_mapping self) (filter self).
Definition with_embedding_dependency ed self :=
  assign self (query_type self) (endpoint self) (authentication self)
         ed (fields_mapping self) (filter self).
Definition with_fields_mapping fm self :=
  assign self (query_type self) (endpoint self) (authentication self)
         (embedding_dependency self) fm (filter self).
Definition with_filter fl self :=
  assign self (query_type self) (endpoint self) (authentication self)
         (embedding_dependency self) (fields_mapping self) fl.

Definition query_types : list string :=
  [ "simple"; "vector"; "semantic"; "vector_simple_hybrid"; "vectorSimpleHybrid";
    "vector_semantic_hybrid"; "vectorSemanticHybrid" ].

(** Field validation, prefix [AZURE_SEARCH_]. *)
Definition validate_fields `{Collaborators} (env : gmap string string) : result t :=
  top_k ← int_field env "AZURE_SEARCH_TOP_K" 5;
  strictness ← int_field env "AZURE_SEARCH_STRICTNESS" 3;
  enable_in_domain ← bool_field env "AZURE_SEARCH_ENABLE_IN_DOMAIN" true;
  service ← required env "AZURE_SEARCH_SERVICE";
  index ← required env "AZURE_SEARCH_INDEX";
  use_semantic_search ← bool_field env "AZURE_SEARCH_USE_SEMANTIC_SEARCH" false;
  query_type ← literal_field env "AZURE_SEARCH_QUERY_TYPE" query_types "simple";
  authentication ← dict_field env "AZURE_SEARCH_AUTHENTICATION";
  embedding_dependency ← dict_field env "AZURE_SEARCH_EMBEDDING_DEPENDENCY";
  fields_mapping ← dict_field env "AZURE_SEARCH_FIELDS_MAPPING";
  Ok (mk top_k strictness enable_in_domain service
         (str_field env "AZURE_SEARCH_ENDPOINT_SUFFIX" "search.windows.net")
         index
         (env_get env "AZURE_SEARCH_KEY")
         use_semantic_search
         (str_field env "AZURE_SEARCH_SEMANTIC_SEARCH_CONFIG" "")
         (columns_field env "AZURE_SEARCH_CONTENT_COLUMNS")
         (columns_field env "AZURE_SEARCH_VECTOR_COLUMNS")
         (env_get env "AZURE_SEARCH_TITLE_COLUMN")
         (env_get env "AZURE_SEARCH_URL_COLUMN")
         (env_get env "AZURE_SEARCH_FILENAME_COLUMN")
         query_type
         (env_get env "AZURE_SEARCH_PERMITTED_GROUPS_COLUMN")
         (env_get env "AZURE_SEARCH_ENDPOINT")
         authentication embedding_dependency fields_mapping
         (env_get env "AZURE_SEARCH_FILTER")).

Definition set_endpoint (self : t) : t :=
  with_endpoint (Some ("https://" +:+ service self +:+ "." +:+ endpoint_suffix self)) self.

Definition set_authentication (self : t) : t :=
  if truthy (key self)
  then with_authentication
         (Some [ ("type", VStr "api_key"); ("key", of_opt_str (key self)) ]) self
  else with_authentication
         (Some [ ("type", VStr "system_assigned_managed_identity") ]) self.

Definition set_fields_mapping (self : t) : t :=
  with_fields_mapping
    (Some (fields_mapping_of (content_columns self) (vector_columns self)
             (title_column self) (url_column self) (filename_column self))) self.

(** The validator returns nothing; run last, its missing return value
    is dropped by the constructor and the assignment stays. *)
Definition set_query_type (self : t) : t :=
  with_query_type (to_snake (query_type self)) self.

(** The constructor: field validation, then the model validators in
    the order they are declared. *)
Definition __init__ `{Collaborators} (env : gmap string string) : result t :=
  self ← validate_fields env;
  Ok (set_query_type (set_fields_mapping (set_authentication (set_endpoint self)))).

Definition fields (self : t) : list field :=
  [ Field "top_n_documents" false (VInt (top_k self));
    Field "strictness" false (VInt (strictness self));
    Field "in_scope" false (VBool (enable_in_domain self));
    Field "service" true (VStr (service self));
    Field "endpoint_suffix" true (VStr (endpoint_suffix self));
    Field "index_name" false (VStr (index self));
    Field "key" true (of_opt_str (key self));
    Field "use_semantic_search" true (VBool (use_semantic_search self));
    Field "semantic_configuration" false (VStr (semantic_search_config self));
    Field "content_columns" true (of_opt_strs (content_columns self));
    Field "vector_columns" true (of_opt_strs (vector_columns self));
    Field "title_column" true (of_opt_str (title_column self));
    Field "url_column" true (of_opt_str (url_column self));
    Field "filename_column" true (of_opt_str (filename_column self));
    Field "query_type" false (VStr (query_type self));
    Field "permitted_groups_column" true (of_opt_str (permitted_groups_column self));
    Field "endpoint" false (of_opt_str (endpoint self));
    Field "authentication" false (of_opt_dict (authentication self));
    Field "embedding_dependency" false (of_opt_dict (embedding_dependency self));
    Field "fields_mapping" false (of_opt_dict (fields_mapping self));
    Field "filter" true (of_opt_str (filter self)) ].

(** [_set_filter_string]: reads the caller's token from the request
    and raises when the permitted-groups column is set and the token
    is missing or empty. *)
Definition _set_filter_string `{Collaborators} (self : t) (request : Request)
  : result (option string) :=
  if truthy (permitted_groups_column self) then
    let user_token := default "" (headers request !! "X-MS-TOKEN-AAD-ACCESS-TOKEN") in
    if negb (nonempty user_token) then
      Raise (ValueError missing_token_message)
    else Ok (Some (generateFilterString user_token))
  else Ok None.

(** [construct_payload_configuration(request=...)].  The result pairs
    what the call returns or raises with the instance as the call
    leaves it: [filter] and [embedding_dependency] are written onto
    the instance before it is dumped.  [request] is [None] when the
    keyword is not passed; a request object is truthy. *)
Definition construct_payload_configuration `{Collaborators}
    (azure_openai : _AzureOpenAISettings.t) (search : _SearchCommonSettings.t)
    (self : t) (request : option Request) : result payload * t :=
  let step1 : result t :=
    match request with
    | Some r =>
        if truthy (permitted_groups_column self)
        then fl ← _set_filter_string self r; Ok (with_filter fl self)
        else Ok self
    | None => Ok self
    end in
  match step1 with
  | Raise e => (Raise e, self)
  | Ok self1 =>
      let self2 :=
        with_embedding_dependency
          (_AzureOpenAISettings.extract_embedding_dependency azure_openai) self1 in
      let parameters :=
        dict_update (model_dump (fields self2))
                    (model_dump (_SearchCommonSettings.fields search)) in
      (Ok (Payload _type parameters), self2)
  end.
End _AzureSearchSettings.

Module _AzureCosmosDbMongoVcoreSettings.
Definition _type : string := "azure_cosmosdb".

Record t : Type := mk {
  top_k : Z;
  strictness : Z;
  enable_in_domain : bool;
  query_type : string;
  connection_string : string;
  index : string;
  database : string;
  container : string;
  content_columns : option (list string);
  vector_columns : option (list string);
  title_column : option string;
  url_column : option string;
  filename_column : option string;
  (* Constructed fields *)
  authentication : option (list (string * value));
  embedding_dependency : option (list (string * value));
  fields_mapping : option (list (string * value))
}.

Definition assign (self : t) (au ed fm : option (list (string * value))) : t :=
  mk (top_k self) (strictness self) (enable_in_domain self) (query_type self)
     (connection_string self) (index self) (database self) (container self)
     (content_columns self) (vector_columns self) (title_column self)
     (url_column self) (filename_column self) au ed fm.

Definition with_authentication au self :=
  assign self au (embedding_dependency self) (fields_mapping self).
Definition with_embedding_dependency ed self :=
  assign self (authentication self) ed (fields_mapping self).
Definition with_fields_mapping fm self :=
  assign self (authentication self) (embedding_dependency self) fm.

(** Field validation, prefix [AZURE_COSMOSDB_MONGO_VCORE_]. *)
Definition validate_fields `{Collaborators} (env : gmap string string) : result t :=
  top_k ← int_field env "AZURE_COSMOSDB_MONGO_VCORE_TOP_K" 5;
  strictness ← int_field env "AZURE_COSMOSDB_MONGO_VCORE_STRICTNESS" 3;
  enable_in_domain ← bool_field env "AZURE_COSMOSDB_MONGO_VCORE_ENABLE_IN_DOMAIN" true;
  query_type ← literal_field env "AZURE_COSMOSDB_MONGO_VCORE_QUERY_TYPE" ["vector"] "vector";
  connection_string ← required env "AZURE_COSMOSDB_MONGO_VCORE_CONNECTION_STRING";
  index ← required env "AZURE_COSMOSDB_MONGO_VCORE_INDEX";
  database ← required env "AZURE_COSMOSDB_MONGO_VCORE_DATABASE";
  container ← required env "AZURE_COSMOSDB_MONGO_VCORE_CONTAINER";
  authentication ← dict_field env "AZURE_COSMOSDB_MONGO_VCORE_AUTHENTICATION";
  embedding_dependency ← dict_field env "AZURE_COSMOSDB_MONGO_VCORE_EMBEDDING_DEPENDENCY";
  fields_mapping ← dict_field env "AZURE_COSMOSDB_MONGO_VCORE_FIELDS_MAPPING";
  Ok (mk top_k strictness enable_in_domain query_type connection_string
         index database container
         (columns_field env "AZURE_COSMOSDB_MONGO_VCORE_CONTENT_COLUMNS")
         (columns_field env "AZURE_COSMOSDB_MONGO_VCORE_VECTOR_COLUMNS")
         (env_get env "AZURE_COSMOSDB_MONGO_VCORE_TITLE_COLUMN")
         (env_get env "AZURE_COSMOSDB_MONGO_VCORE_URL_COLUMN")
         (env_get env "AZURE_COSMOSDB_MONGO_VCORE_FILENAME_COLUMN")
         authentication embedding_dependency fields_mapping).

Definition construct_authentication (self : t) : t :=
  with_authentication
    (Some [ ("type", VStr "connection_string");
            ("connection_string", VStr (connection_string self)) ]) self.

Definition set_fields_mapping (self : t) : t :=
  with_fields_mapping
    (Some (fields_mapping_of (content_columns self) (vector_columns self)
             (title_column self) (url_column self) (filename_column self))) self.

Definition __init__ `{Collaborators} (env : gmap string string) : result t :=
  self ← validate_fields env;
  Ok (set_fields_mapping (construct_authentication self)).

Definition fields (self : t) : list field :=
  [ Field "top_n_documents" false (VInt (top_k self));
    Field "strictness" false (VInt (strictness self));
    Field "in_scope" false (VBool (enable_in_domain self));
    Field "query_type" false (VStr (query_type self));
    Field "connection_string" true (VStr (connection_string self));
    Field "index_name" false (VStr (index self));
    Field "database_name" false (VStr (database self));
    Field "container_name" false (VStr (container self));
    Field "content_columns" true (of_opt_strs (content_columns self));
    Field "vector_columns" true (of_opt_strs (vector_columns self));
    Field "title_column" true (of_opt_str (title_column self));
    Field "url_column" true (of_opt_str (url_column self));
    Field "filename_column" true (of_opt_str (filename_column self));
    Field "authentication" false (of_opt_dict (authentication self));
    Field "embedding_dependency" false (of_opt_dict (embedding_dependency self));
    Field "fields_mapping" false (of_opt_dict (fields_mapping self)) ].

Definition construct_payload_configuration
    (azure_openai : _AzureOpenAISettings.t) (search : _SearchCommonSettings.t)
    (self : t) (request : option Request) : result payload * t :=
  let self1 :=
    with_embedding_dependency
      (_AzureOpenAISettings.extract_embedding_dependency azure_openai) self in
  let parameters :=
    dict_update (model_dump (fields self1))
                (model_dump (_SearchCommonSettings.fields search)) in
  (Ok (Payload _type parameters), self1).
End _AzureCosmosDbMongoVcoreSettings.

Module _ElasticsearchSettings.
Definition _type : string := "elasticsearch".

Record t : Type := mk {
  top_k : Z;
  strictness : Z;
  enable_in_domain : bool;
  endpoint : string;
  encoded_api_key : string;
  index : string;
  query_type : string;
  content_columns : option (list string);
  vector_columns : option (list string);
  title_column : option string;
  url_column : option string;
  filename_column : option string;
  embedding_model_id : option string;
  (* Constructed fields *)
  authentication : option (list (string * value));
  embedding_dependency : option (list (string * value));
  fields_mapping : option (list (string * value))
}.

Definition assign (self : t) (au ed fm : option (list (string * value))) : t :=
  mk (top_k self) (strictness self) (enable_in_domain self) (endpoint self)
     (encoded_api_key self) (index self) (query_type self)
     (content_columns self) (vector_columns self) (title_column self)
     (url_column self) (filename_column self) (embedding_model_id self) au ed fm.

Definition with_authentication au self :=
  assign self au (embedding_dependency self) (fields_mapping self).
Definition with_embedding_dependency ed self :=
  assign self (authentication self) ed (fields_mapping self).
Definition with_fields_mapping fm self :=
  assign self (authentication self) (embedding_dependency self) fm.

(** Field validation, prefix [ELASTICSEARCH_]. *)
Definition validate_fields `{Collaborators} (env : gmap string string) : result t :=
  top_k ← int_field env "ELASTICSEARCH_TOP_K" 5;
  strictness ← int_field env "ELASTICSEARCH_STRICTNESS" 3;
  enable_in_domain ← bool_field env "ELASTICSEARCH_ENABLE_IN_DOMAIN" true;
  endpoint ← required env "ELASTICSEARCH_ENDPOINT";
  encoded_api_key ← required env "ELASTICSEARCH_ENCODED_API_KEY";
  index ← required env "ELASTICSEARCH_INDEX";
  query_type ← literal_field env "ELASTICSEARCH_QUERY_TYPE" ["simple"; "vector"] "simple";
  authentication ← dict_field env "ELASTICSEARCH_AUTHENTICATION";
  embedding_dependency ← dict_field env "ELASTICSEARCH_EMBEDDING_DEPENDENCY";
  fields_mapping ← dict_field env "ELASTICSEARCH_FIELDS_MAPPING";
  Ok (mk top_k strictness enable_in_domain endpoint encoded_api_key index query_type
         (columns_field env "ELASTICSEARCH_CONTENT_COLUMNS")
         (columns_field env "ELASTICSEARCH_VECTOR_COLUMNS")
         (env_get env "ELASTICSEARCH_TITLE_COLUMN")
         (env_get env "ELASTICSEARCH_URL_COLUMN")
         (env_get env "ELASTICSEARCH_FILENAME_COLUMN")
         (env_get env "ELASTICSEARCH_EMBEDDING_MODEL_ID")
         authentication embedding_dependency fields_mapping).

Definition set_authentication (self : t) : t :=
  with_authentication
    (Some [ ("type", VStr "encoded_api_key");
            ("encoded_api_key", VStr (encoded_api_key self)) ]) self.

Definition set_fields_mapping (self : t) : t :=
  with_fields_mapping
    (Some (fields_mapping_of (content_columns self) (vector_columns self)
             (title_column self) (url_column self) (filename_column self))) self.

Definition __init__ `{Collaborators} (env : gmap string string) : result t :=
  self ← validate_fields env;
  Ok (set_fields_mapping (set_authentication self)).

Definition fields (self : t) : list field :=
  [ Field "top_n_documents" false (VInt (top_k self));
    Field "strictness" false (VInt (strictness self));
    Field "in_scope" false (VBool (enable_in_domain self));
    Field "endpoint" false (VStr (endpoint self));
    Field "encoded_api_key" true (VStr (encoded_api_key self));
    Field "index_name" false (VStr (index self));
    Field "query_type" false (VStr (query_type self));
    Field "content_columns" true (of_opt_strs (content_columns self));
    Field "vector_columns" true (of_opt_strs (vector_columns self));
    Field "title_column" true (of_opt_str (title_column self));
    Field "url_column" true (of_opt_str (url_column self));
    Field "filename_column" true (of_opt_str (filename_column self));
    Field "embedding_model_id" true (of_opt_str (embedding_model_id self));
    Field "authentication" false (of_opt_dict (authentication self));
    Field "embedding_dependency" false (of_opt_dict (embedding_dependency self));
    Field "fields_mapping" false (of_opt_dict (fields_mapping self)) ].

Definition construct_payload_configuration
    (azure_openai : _AzureOpenAISettings.t) (search : _SearchCommonSettings.t)
    (self : t) (request : option Request) : result payload * t :=
  let self1 :=
    with_embedding_dependency
      (if truthy (embedding_model_id self)
       then Some [ ("type", VStr "model_id");
                   ("model_id", of_opt_str (embedding_model_id self)) ]
       else _AzureOpenAISettings.extract_embedding_dependency azure_openai) self in
  let parameters :=
    dict_update (model_dump (fields self1))
                (model_dump (_SearchCommonSettings.fields search)) in
  (Ok (Payload _type parameters), self1).
End _ElasticsearchSettings.

Module _PineconeSettings.
Definition _type : string := "pinecone".

Record t : Type := mk {
  top_k : Z;
  strictness : Z;
  enable_in_domain : bool;
  environment : string;
  api_key : string;
  index_name : string;
  query_type : string;
  content_columns : option (list string);
  vector_columns : option (list string);
  title_column : option string;
  url_column : option string;
  filename_column : option string;
  (* Constructed fields *)
  authentication : option (list (string * value));
  embedding_dependency : option (list (string * value));
  fields_mapping : option (list (string * value))
}.

Definition assign (self : t) (au ed fm : option (list (string * value))) : t :=
  mk (top_k self) (strictness self) (enable_in_domain self) (environment self)
     (api_key self) (index_name self) (query_type self)
     (content_columns self) (vector_columns self) (title_column self)
     (url_column self) (filename_column self) au ed fm.

Definition with_authentication au self :=
  assign self au (embedding_dependency self) (fields_mapping self).
Definition with_embedding_dependency ed self :=
  assign self (authentication self) ed (fields_mapping self).
Definition with_fields_mapping fm self :=
  assign self (authentication self) (embedding_dependency self) fm.

(** Field validation, prefix [PINECONE_]. *)
Definition validate_fields `{Collaborators} (env : gmap string string) : result t :=
  top_k ← int_field env "PINECONE_TOP_K" 5;
  strictness ← int_field env "PINECONE_STRICTNESS" 3;
  enable_in_domain ← bool_field env "PINECONE_ENABLE_IN_DOMAIN" true;
  environment ← required env "PINECONE_ENVIRONMENT";
  api_key ← required env "PINECONE_API_KEY";
  index_name ← required env "PINECONE_INDEX_NAME";
  query_type ← literal_field env "PINECONE_QUERY_TYPE" ["vector"] "vector";
  authentication ← dict_field env "PINECONE_AUTHENTICATION";
  embedding_dependency ← dict_field env "PINECONE_EMBEDDING_DEPENDENCY";
  fields_mapping ← dict_field env "PINECONE_FIELDS_MAPPING";
  Ok (mk top_k strictness enable_in_domain environment api_key index_name query_type
         (columns_field env "PINECONE_CONTENT_COLUMNS")
         (columns_field env "PINECONE_VECTOR_COLUMNS")
         (env_get env "PINECONE_TITLE_COLUMN")
         (env_get env "PINECONE_URL_COLUMN")
         (env_get env "PINECONE_FILENAME_COLUMN")
         authentication embedding_dependency fields_mapping).

Definition set_authentication (self : t) : t :=
  with_authentication
    (Some [ ("type", VStr "api_key"); ("api_key", VStr (api_key self)) ]) self.

Definition set_fields_mapping (self : t) : t :=
  with_fields_mapping
    (Some (fields_mapping_of (content_columns self) (vector_columns self)
             (title_column self) (url_column self) (filename_column self))) self.

Definition __init__ `{Collaborators} (env : gmap string string) : result t :=
  self ← validate_fields env;
  Ok (set_fields_mapping (set_authentication self)).

Definition fields (self : t) : list field :=
  [ Field "top_n_documents" false (VInt (top_k self));
    Field "strictness" false (VInt (strictness self));
    Field "in_scope" false (VBool (enable_in_domain self));
    Field "environment" false (VStr (environment self));
    Field "api_key" true (VStr (api_key self));
    Field "index_name" false (VStr (index_name self));
    Field "query_type" false (VStr (query_type self));
    Field "content_columns" true (of_opt_strs (content_columns self));
    Field "vector_columns" true (of_opt_strs (vector_columns self));
    Field "title_column" true (of_opt_str (title_column self));
    Field "url_column" true (of_opt_str (url_column self));
    Field "filename_column" true (of_opt_str (filename_column self));
    Field "authentication" false (of_opt_dict (authentication self));
    Field "embedding_dependency" false (of_opt_dict (embedding_dependency self));
    Field "fields_mapping" false (of_opt_dict (fields_mapping self)) ].

Definition construct_payload_configuration
    (azure_openai : _AzureOpenAISettings.t) (search : _SearchCommonSettings.t)
    (self : t) (request : option Request) : result payload * t :=
  let self1 :=
    with_embedding_dependency
      (_AzureOpenAISettings.extract_embedding_dependency azure_openai) self in
  let parameters :=
    dict_update (model_dump (fields self1))
                (model_dump (_SearchCommonSettings.fields search)) in
  (Ok (Payload _type parameters), self1).
End _PineconeSettings.

Module _AzureMLIndexSettings.
Definition _type : string := "azure_ml_index".

Record t : Type := mk {
  top_k : Z;
  strictness : Z;
  enable_in_domain : bool;
  name : string;
  version : string;
  project_resource_id : string;
  content_columns : option (list string);
  vector_columns : option (list string);
  title_column : option string;
  url_column : option string;
  filename_column : option string;
  (* Constructed fields *)
  fields_mapping : option (list (string * value))
}.

Definition with_fields_mapping fm self :=
  mk (top_k self) (strictness self) (enable_in_domain self) (name self)
     (version self) (project_resource_id self)
     (content_columns self) (vector_columns self) (title_column self)
     (url_column self) (filename_column self) fm.

(** Field validation, prefix [AZURE_MLINDEX_]; [project_resource_id]
    is read under its validation alias. *)
Definition validate_fields `{Collaborators} (env : gmap string string) : result t :=
  top_k ← int_field env "AZURE_MLINDEX_TOP_K" 5;
  strictness ← int_field env "AZURE_MLINDEX_STRICTNESS" 3;
  enable_in_domain ← bool_field env "AZURE_MLINDEX_ENABLE_IN_DOMAIN" true;
  name ← required env "AZURE_MLINDEX_NAME";
  version ← required env "AZURE_MLINDEX_VERSION";
  project_resource_id ← required env "AZURE_ML_PROJECT_RESOURCE_ID";
  fields_mapping ← dict_field env "AZURE_MLINDEX_FIELDS_MAPPING";
  Ok (mk top_k strictness enable_in_domain name version project_resource_id
         (columns_field env "AZURE_MLINDEX_CONTENT_COLUMNS")
         (columns_field env "AZURE_MLINDEX_VECTOR_COLUMNS")
         (env_get env "AZURE_MLINDEX_TITLE_COLUMN")
         (env_get env "AZURE_MLINDEX_URL_COLUMN")
         (env_get env "AZURE_MLINDEX_FILENAME_COLUMN")
         fields_mapping).

Definition set_fields_mapping (self : t) : t :=
  with_fields_mapping
    (Some (fields_mapping_of (content_columns self) (vector_columns self)
             (title_column self) (url_column self) (filename_column self))) self.

Definition __init__ `{Collaborators} (env : gmap string string) : result t :=
  self ← validate_fields env;
  Ok (set_fields_mapping self).

Definition fields (self : t) : list field :=
  [ Field "top_n_documents" false (VInt (top_k self));
    Field "strictness" false (VInt (strictness self));
    Field "in_scope" false (VBool (enable_in_domain self));
    Field "name" false (VStr (name self));
    Field "version" false (VStr (version self));
    Field "project_resource_id" false (VStr (project_resource_id self));
    Field "content_columns" true (of_opt_strs (content_columns self));
    Field "vector_columns" true (of_opt_strs (vector_columns self));
    Field "title_column" true (of_opt_str (title_column self));
    Field "url_column" true (of_opt_str (url_column self));
    Field "filename_column" true (of_opt_str (filename_column self));
    Field "fields_mapping" false (of_opt_dict (fields_mapping self)) ].

Definition construct_payload_configuration
    (azure_openai : _AzureOpenAISettings.t) (search : _SearchCommonSettings.t)
    (self : t) (request : option Request) : result payload * t :=
  let parameters :=
    dict_update (model_dump (fields self))
                (model_dump (_SearchCommonSettings.fields search)) in
  (Ok (Payload _type parameters), self).
End _AzureMLIndexSettings.

Module _AzureSqlServerSettings.
Definition _type : string := "azure_sql_server".

Record t : Type := mk {
  connection_string : option string;
  table_schema : option string;
  schema_max_row : option Z;
  top_n_results : option Z;
  database_server : option string;
  database_name : option string;
  port : option Z;
  (* Constructed fields *)
  authentication : option (list (string * value))
}.

Definition with_authentication au self :=
  mk (connection_string self) (table_schema self) (schema_max_row self)
     (top_n_results self) (database_server self) (database_name self)
     (port self) au.

(** Field validation, prefix [AZURE_SQL_SERVER_]. *)
Definition validate_fields `{Collaborators} (env : gmap string string) : result t :=
  schema_max_row ← opt_int_field env "AZURE_SQL_SERVER_SCHEMA_MAX_ROW";
  top_n_results ← opt_int_field env "AZURE_SQL_SERVER_TOP_N_RESULTS";
  port ← opt_int_field env "AZURE_SQL_SERVER_PORT";
  authentication ← dict_field env "AZURE_SQL_SERVER_AUTHENTICATION";
  Ok (mk (env_get env "AZURE_SQL_SERVER_CONNECTION_STRING")
         (env_get env "AZURE_SQL_SERVER_TABLE_SCHEMA")
         schema_max_row top_n_results
         (env_get env "AZURE_SQL_SERVER_DATABASE_SERVER")
         (env_get env "AZURE_SQL_SERVER_DATABASE_NAME")
         port authentication).

(** Neither branch taken leaves [authentication] as field validation
    produced it. *)
Definition construct_authentication (self : t) : t :=
  if truthy (connection_string self) then
    with_authentication
      (Some [ ("type", VStr "connection_string");
              ("connection_string", of_opt_str (connection_string self)) ]) self
  else if truthy (database_server self) && truthy (database_name self)
          && truthy_int (port self) then
    with_authentication
      (Some [ ("type", VStr "system_assigned_managed_identity") ]) self
  else self.

Definition __init__ `{Collaborators} (env : gmap string string) : result t :=
  self ← validate_fields env;
  Ok (construct_authentication self).

Definition fields (self : t) : list field :=
  [ Field "connection_string" true (of_opt_str (connection_string self));
    Field "table_schema" false (of_opt_str (table_schema self));
    Field "schema_max_row" false (of_opt_int (schema_max_row self));
    Field "top_n_results" false (of_opt_int (top_n_results self));
    Field "database_server" false (of_opt_str (database_server self));
    Field "database_name" false (of_opt_str (database_name self));
    Field "port" false (of_opt_int (port self));
    Field "authentication" false (of_opt_dict (authentication self)) ].

(** The merge of the search settings is commented out in the source. *)
Definition construct_payload_configuration
    (azure_openai : _AzureOpenAISettings.t) (search : _SearchCommonSettings.t)
    (self : t) (request : option Request) : result payload * t :=
  let parameters := model_dump (fields self) in
  (Ok (Payload _type parameters), self).
End _AzureSqlServerSettings.

Module _MongoDbSettings.
Definition _type : string := "mongo_db".

Record t : Type := mk {
  endpoint : string;
  username : string;
  password : string;
  database_name : string;
  collection_name : string;
  app_name : string;
  index_name : string;
  query_type : string;
  top_k : Z;
  strictness : Z;
  enable_in_domain : bool;
  content_columns : option (list string);
  vector_columns : option (list string);
  title_column : option string;
  url_column : option string;
  filename_column : option string;
  (* Constructed fields *)
  authentication : option (list (string * value));
  embedding_dependency : option (list (string * value));
  fields_mapping : option (list (string * value))
}.

Definition assign (self : t) (au ed fm : option (list (string * value))) : t :=
  mk (endpoint self) (username self) (password self) (database_name self)
     (collection_name self) (app_name self) (index_name self) (query_type self)
     (top_k self) (strictness self) (enable_in_domain self)
     (content_columns self) (vector_columns self) (title_column self)
     (url_column self) (filename_column self) au ed fm.

Definition with_authentication au self :=
  assign self au (embedding_dependency self) (fields_mapping self).
Definition with_embedding_dependency ed self :=
  assign self (authentication self) ed (fields_mapping self).
Definition with_fields_mapping fm self :=
  assign self (authentication self) (embedding_dependency self) fm.

(** Field validation, prefix [MONGODB_]. *)
Definition validate_fields `{Collaborators} (env : gmap string string) : result t :=
  endpoint ← required env "MONGODB_ENDPOINT";
  username ← required env "MONGODB_USERNAME";
  password ← required env "MONGODB_PASSWORD";
  database_name ← required env "MONGODB_DATABASE_NAME";
  collection_name ← required env "MONGODB_COLLECTION_NAME";
  app_name ← required env "MONGODB_APP_NAME";
  index_name ← required env "MONGODB_INDEX_NAME";
  query_type ← literal_field env "MONGODB_QUERY_TYPE" ["vector"] "vector";
  top_k ← int_field env "MONGODB_TOP_K" 5;
  strictness ← int_field env "MONGODB_STRICTNESS" 3;
  enable_in_domain ← bool_field env "MONGODB_ENABLE_IN_DOMAIN" true;
  authentication ← dict_field env "MONGODB_AUTHENTICATION";
  embedding_dependency ← dict_field env "MONGODB_EMBEDDING_DEPENDENCY";
  fields_mapping ← dict_field env "MONGODB_FIELDS_MAPPING";
  Ok (mk endpoint username password database_name collection_name app_name
         index_name query_type top_k strictness enable_in_domain
         (columns_field env "MONGODB_CONTENT_COLUMNS")
         (columns_field env "MONGODB_VECTOR_COLUMNS")
         (env_get env "MONGODB_TITLE_COLUMN")
         (env_get env "MONGODB_URL_COLUMN")
         (env_get env "MONGODB_FILENAME_COLUMN")
         authentication embedding_dependency fields_mapping).

Definition set_fields_mapping (self : t) : t :=
  with_fields_mapping
    (Some (fields_mapping_of (content_columns self) (vector_columns self)
             (title_column self) (url_column self) (filename_column self))) self.

Definition construct_authentication (self : t) : t :=
  with_authentication
    (Some [ ("type", VStr "username_and_password");
            ("username", VStr (username self));
            ("password", VStr (password self)) ]) self.

Definition __init__ `{Collaborators} (env : gmap string string) : result t :=
  self ← validate_fields env;
  Ok (construct_authentication (set_fields_mapping self)).

Definition fields (self : t) : list field :=
  [ Field "endpoint" false (VStr (endpoint self));
    Field "username" true (VStr (username self));
    Field "password" true (VStr (password self));
    Field "database_name" false (VStr (database_name self));
    Field "collection_name" false (VStr (collection_name self));
    Field "app_name" false (VStr (app_name self));
    Field "index_name" false (VStr (index_name self));
    Field "query_type" false (VStr (query_type self));
    Field "top_n_documents" false (VInt (top_k self));
    Field "strictness" false (VInt (strictness self));
    Field "in_scope" false (VBool (enable_in_domain self));
    Field "content_columns" true (of_opt_strs (content_columns self));
    Field "vector_columns" true (of_opt_strs (vector_columns self));
    Field "title_column" true (of_opt_str (title_column self));
    Field "url_column" true (of_opt_str (url_column self));
    Field "filename_column" true (of_opt_str (filename_column self));
    Field "authentication" false (of_opt_dict (authentication self));
    Field "embedding_dependency" false (of_opt_dict (embedding_dependency self));
    Field "fields_mapping" false (of_opt_dict (fields_mapping self)) ].

Definition construct_payload_configuration
    (azure_openai : _AzureOpenAISettings.t) (search : _SearchCommonSettings.t)
    (self : t) (request : option Request) : result payload * t :=
  let self1 :=
    with_embedding_dependency
      (_AzureOpenAISettings.extract_embedding_dependency azure_openai) self in
  let parameters :=
    dict_update (model_dump (fields self1))
                (model_dump (_SearchCommonSettings.fields search)) in
  (Ok (Payload _type parameters), self1).
End _MongoDbSettings.

(** ** The abstract datasource and the root *)

(** [DatasourcePayloadConstructor]: the closed family of its seven
    concrete subclasses. *)
Inductive DatasourcePayloadConstructor : Type :=
| AzureSearch (s : _AzureSearchSettings.t)
| AzureCosmosDb (s : _AzureCosmosDbMongoVcoreSettings.t)
| Elasticsearch (s : _ElasticsearchSettings.t)
| Pinecone (s : _PineconeSettings.t)
| AzureMLIndex (s : _AzureMLIndexSettings.t)
| AzureSqlServer (s : _AzureSqlServerSettings.t)
| MongoDb (s : _MongoDbSettings.t).

(** The private attribute [_type] of the instance. *)
Definition _type (ds : DatasourcePayloadConstructor) : string :=
  match ds with
  | AzureSearch _ => _AzureSearchSettings._type
  | AzureCosmosDb _ => _AzureCosmosDbMongoVcoreSettings._type
  | Elasticsearch _ => _ElasticsearchSettings._type
  | Pinecone _ => _PineconeSettings._type
  | AzureMLIndex _ => _AzureMLIndexSettings._type
  | AzureSqlServer _ => _AzureSqlServerSettings._type
  | MongoDb _ => _MongoDbSettings._type
  end.

Module _ChatHistorySettings.
Record t : Type := mk {
  database : string;
  account : string;
  account_key : option string;
  conversations_container : string;
  enable_feedback : bool
}.

(** Field validation, prefix [AZURE_COSMOSDB_]. *)
Definition __init__ `{Collaborators} (env : gmap string string) : result t :=
  database ← required env "AZURE_COSMOSDB_DATABASE";
  account ← required env "AZURE_COSMOSDB_ACCOUNT";
  conversations_container ← required env "AZURE_COSMOSDB_CONVERSATIONS_CONTAINER";
  enable_feedback ← bool_field env "AZURE_COSMOSDB_ENABLE_FEEDBACK" false;
  Ok (mk database account (env_get env "AZURE_COSMOSDB_ACCOUNT_KEY")
         conversations_container enable_feedback).
End _ChatHistorySettings.

Module _BaseSettings.
Record t : Type := mk {
  datasource_type : option string;
  auth_enabled : bool;
  sanitize_answer : bool;
  use_promptflow : bool
}.

(** Field validation, no prefix. *)
Definition __init__ `{Collaborators} (env : gmap string string) : result t :=
  auth_enabled ← bool_field env "AUTH_ENABLED" true;
  sanitize_answer ← bool_field env "SANITIZE_ANSWER" false;
  use_promptflow ← bool_field env "USE_PROMPTFLOW" false;
  Ok (mk (env_get env "DATASOURCE_TYPE") auth_enabled sanitize_answer use_promptflow).
End _BaseSettings.

Module _AppSettings.
Record t : Type := mk {
  base_settings : _BaseSettings.t;
  azure_openai : _AzureOpenAISettings.t;
  search : _SearchCommonSettings.t;
  (* Constructed properties *)
  datasource : option DatasourcePayloadConstructor
}.

Definition with_datasource ds self :=
  mk (base_settings self) (azure_openai self) (search self) ds.

Definition no_datasource_message : string :=
  "No datasource configuration found in the environment -- calls will be made to Azure OpenAI without grounding data.".

(** The body of the [try] block of [set_datasource_settings]: the
    value assigned to [self.datasource] and the record logged. *)
Definition try_datasource `{Collaborators} (env : gmap string string)
    (datasource_type : option string)
  : result (option DatasourcePayloadConstructor * log_record) :=
  if bool_decide (datasource_type = Some "AzureCognitiveSearch") then
    s ← _AzureSearchSettings.__init__ env;
    Ok (Some (AzureSearch s), LogDebug "Using Azure Cognitive Search")
  else if bool_decide (datasource_type = Some "AzureCosmosDB") then
    s ← _AzureCosmosDbMongoVcoreSettings.__init__ env;
    Ok (Some (AzureCosmosDb s), LogDebug "Using Azure CosmosDB Mongo vcore")
  else if bool_decide (datasource_type = Some "Elasticsearch") then
    s ← _ElasticsearchSettings.__init__ env;
    Ok (Some (Elasticsearch s), LogDebug "Using Elasticsearch")
  else if bool_decide (datasource_type = Some "Pinecone") then
    s ← _PineconeSettings.__init__ env;
    Ok (Some (Pinecone s), LogDebug "Using Pinecone")
  else if bool_decide (datasource_type = Some "AzureMLIndex") then
    s ← _AzureMLIndexSettings.__init__ env;
    Ok (Some (AzureMLIndex s), LogDebug "Using Azure ML Index")
  else if bool_decide (datasource_type = Some "AzureSqlServer") then
    s ← _AzureSqlServerSettings.__init__ env;
    Ok (Some (AzureSqlServer s), LogDebug "Using SQL Server")
  else if bool_decide (datasource_type = Some "MongoDB") then
    s ← _MongoDbSettings.__init__ env;
    Ok (Some (MongoDb s), LogDebug "Using Mongo DB")
  else
    Ok (None, LogWarning no_datasource_message).

(** [set_datasource_settings]: only [ValidationError] is caught.  The
    handler returns nothing; the root's constructor drops the value a
    model validator returns and keeps the instance, whose [datasource]
    has not been assigned on that path. *)
Definition set_datasource_settings `{Collaborators} (env : gmap string string)
    (self : t) : result t * list log_record :=
  match try_datasource env (_BaseSettings.datasource_type (base_settings self)) with
  | Ok (ds, record) => (Ok (with_datasource ds self), [record])
  | Raise (ValidationError loc msg) =>
      (Ok self,
       [LogWarning no_datasource_message;
        LogWarningErrors (ValidationError loc msg)])
  | Raise e => (Raise e, [])
  end.

(** The root built over its three groups: [datasource] starts at its
    declared default and [set_datasource_settings] runs. *)
Definition __init__ `{Collaborators} (env : gmap string string)
    (base_settings : _BaseSettings.t) (azure_openai : _AzureOpenAISettings.t)
    (search : _SearchCommonSettings.t) : result t * list log_record :=
  set_datasource_settings env (mk base_settings azure_openai search None).
(** [set_chat_history_settings]: the value the validator assigns to
    [self.chat_history], the only attribute it writes.  Only
    [ValidationError] is caught. *)
Definition set_chat_history_settings `{Collaborators} (env : gmap string string)
  : result (option _ChatHistorySettings.t) :=
  match _ChatHistorySettings.__init__ env with
  | Ok c => Ok (Some c)
  | Raise (ValidationError _ _) => Ok None
  | Raise e => Raise e
  end.
End _AppSettings.

(** Dynamic dispatch of [construct_payload_configuration]; the
    back-reference [_settings] is read at [azure_openai] and [search]. *)
Definition construct_payload_configuration `{Collaborators}
    (settings : _AppSettings.t) (ds : DatasourcePayloadConstructor)
    (request : option Request) : result payload * DatasourcePayloadConstructor :=
  let ao := _AppSettings.azure_openai settings in
  let se := _AppSettings.search settings in
  match ds with
  | AzureSearch s =>
      prod_map id AzureSearch
        (_AzureSearchSettings.construct_payload_configuration ao se s request)
  | AzureCosmosDb s =>
      prod_map id AzureCosmosDb
        (_AzureCosmosDbMongoVcoreSettings.construct_payload_configuration ao se s request)
  | Elasticsearch s =>
      prod_map id Elasticsearch
        (_ElasticsearchSettings.construct_payload_configuration ao se s request)
  | Pinecone s =>
      prod_map id Pinecone
        (_PineconeSettings.construct_payload_configuration ao se s request)
  | AzureMLIndex s =>
      prod_map id AzureMLIndex
        (_AzureMLIndexSettings.construct_payload_configuration ao se s request)
  | AzureSqlServer s =>
      prod_map id AzureSqlServer
        (_AzureSqlServerSettings.construct_payload_configuration ao se s request)
  | MongoDb s =>
      prod_map id MongoDb
        (_MongoDbSettings.construct_payload_configuration ao se s request)
  end.

(** The fields a datasource dumps, whatever its class. *)
Definition own_fields (ds : DatasourcePayloadConstructor) : list field :=
  match ds with
  | AzureSearch s => _AzureSearchSettings.fields s
  | AzureCosmosDb s => _AzureCosmosDbMongoVcoreSettings.fields s
  | Elasticsearch s => _ElasticsearchSettings.fields s
  | Pinecone s => _PineconeSettings.fields s
  | AzureMLIndex s => _AzureMLIndexSettings.fields s
  | AzureSqlServer s => _AzureSqlServerSettings.fields s
  | MongoDb s => _MongoDbSettings.fields s
  end.

(** Modelled from the spec: the root accessors [activeDatasource] and
    [constructDatasourcePayload] of section 6, which the settings module
    does not define (its callers test [app_settings.datasource] and call
    the method themselves). *)
Definition activeDatasource (settings : _AppSettings.t)
  : option DatasourcePayloadConstructor :=
  _AppSettings.datasource settings.

Definition constructDatasourcePayload `{Collaborators} (settings : _AppSettings.t)
    (request : option Request) : option (result payload) :=
  match activeDatasource settings with
  | None => None
  | Some ds => Some (construct_payload_configuration settings ds request).1
  end.

(** ** A reference instance of the collaborators

    Used to run the model on concrete environments: columns are split
    at commas, integers are decimal numerals, booleans are [true] and
    [false], a JSON text is decoded only when it is [null], and the
    access filter quotes the token. *)
Fixpoint split_at_commas (acc s : string) : list string :=
  match s with
  | EmptyString => [String.rev acc]
  | String c rest =>
      if Ascii.eqb c ","%char
      then String.rev acc :: split_at_commas EmptyString rest
      else split_at_commas (String c acc) rest
  end.

Fixpoint decimal_digits (acc : Z) (s : string) : option Z :=
  match s with
  | EmptyString => Some acc
  | String c rest =>
      let d := Z.of_N (Ascii.N_of_ascii c) - 48 in
      if (0 <=? d) && (d <=? 9) then decimal_digits (10 * acc + d) rest else None
  end.

Definition reference : Collaborators := {|
  parse_multi_columns := split_at_commas EmptyString;
  generateFilterString := fun token => "group_ids/any(g:search.in(g, '" +:+ token +:+ "'))";
  json_loads := fun s => if bool_decide (s = "null") then Some VNone else None;
  str_to_int := fun s => if nonempty s then decimal_digits 0 s else None;
  str_to_bool := fun s =>
    if bool_decide (s = "true") then Some true
    else if bool_decide (s = "false") then Some false else None
|}.

(** ** The token a request carries *)

(** The token [_set_filter_string] would read, when there is one to
    read: a request with the header present and not empty. *)
Definition usable_token (request : option Request) : option string :=
  match request with
  | Some r =>
      match headers r !! "X-MS-TOKEN-AAD-ACCESS-TOKEN" with
      | Some tok => if nonempty tok then Some tok else None
      | None => None
      end
  | None => None
  end.

(** ** Concrete settings for the closed examples *)

Definition example_openai : _AzureOpenAISettings.t :=
  _AzureOpenAISettings.mk "gpt-4o" None (Some "contoso")
    (Some "https://contoso.openai.azure.com") None None None.

Definition example_search : _SearchCommonSettings.t := _SearchCommonSettings.defaults.

(** An environment that selects the search index backend, gives its two
    required variables and names a permitted-groups column. *)
Definition example_env : gmap string string :=
  list_to_map
    [ ("DATASOURCE_TYPE", "AzureCognitiveSearch");
      ("AZURE_SEARCH_SERVICE", "svc");
      ("AZURE_SEARCH_INDEX", "idx");
      ("AZURE_SEARCH_PERMITTED_GROUPS_COLUMN", "groups") ].

(** The instance the constructor builds from [example_env]. *)
Definition example_azure_search : _AzureSearchSettings.t :=
  _AzureSearchSettings.mk 5 3 true "svc" "search.windows.net" "idx" None false ""
    None None None None None "simple" (Some "groups")
    (Some "https://svc.search.windows.net")
    (Some [ ("type", VStr "system_assigned_managed_identity") ])
    None
    (Some (fields_mapping_of None None None None None))
    None.

Definition request_with_token (token : string) : Request :=
  {| headers := {[ "X-MS-TOKEN-AAD-ACCESS-TOKEN" := token ]} |}.

Definition request_without_token : Request := {| headers := ∅ |}.

(** ** The backends as the specification lists them

    The seven discriminator values with the type tag each is expected to
    yield, the variables each backend requires, and the optional
    variables whose text is validated when they are set. *)
Definition backends : list (string * string) :=
  [ ("AzureCognitiveSearch", "azure_search");
    ("AzureCosmosDB", "azure_cosmosdb");
    ("Elasticsearch", "elasticsearch");
    ("Pinecone", "pinecone");
    ("AzureMLIndex", "azure_ml_index");
    ("AzureSqlServer", "azure_sql_server");
    ("MongoDB", "mongo_db") ].

Definition recognized (datasource_type : option string) : bool :=
  match datasource_type with
  | Some d => bool_decide (d ∈ backends.*1)
  | None => false
  end.

Definition required_variables (d : string) : list string :=
  if bool_decide (d = "AzureCognitiveSearch") then
    [ "AZURE_SEARCH_SERVICE"; "AZURE_SEARCH_INDEX" ]
  else if bool_decide (d = "AzureCosmosDB") then
    [ "AZURE_COSMOSDB_MONGO_VCORE_CONNECTION_STRING"; "AZURE_COSMOSDB_MONGO_VCORE_INDEX";
      "AZURE_COSMOSDB_MONGO_VCORE_DATABASE"; "AZURE_COSMOSDB_MONGO_VCORE_CONTAINER" ]
  else if bool_decide (d = "Elasticsearch") then
    [ "ELASTICSEARCH_ENDPOINT"; "ELASTICSEARCH_ENCODED_API_KEY"; "ELASTICSEARCH_INDEX" ]
  else if bool_decide (d = "Pinecone") then
    [ "PINECONE_ENVIRONMENT"; "PINECONE_API_KEY"; "PINECONE_INDEX_NAME" ]
  else if bool_decide (d = "AzureMLIndex") then
    [ "AZURE_MLINDEX_NAME"; "AZURE_MLINDEX_VERSION"; "AZURE_ML_PROJECT_RESOURCE_ID" ]
  else if bool_decide (d = "MongoDB") then
    [ "MONGODB_ENDPOINT"; "MONGODB_USERNAME"; "MONGODB_PASSWORD"; "MONGODB_DATABASE_NAME";
      "MONGODB_COLLECTION_NAME"; "MONGODB_APP_NAME"; "MONGODB_INDEX_NAME" ]
  else [].

Definition validated_variables (d : string) : list string :=
  if bool_decide (d = "AzureCognitiveSearch") then
    [ "AZURE_SEARCH_TOP_K"; "AZURE_SEARCH_STRICTNESS"; "AZURE_SEARCH_ENABLE_IN_DOMAIN";
      "AZURE_SEARCH_USE_SEMANTIC_SEARCH"; "AZURE_SEARCH_QUERY_TYPE";
      "AZURE_SEARCH_AUTHENTICATION"; "AZURE_SEARCH_EMBEDDING_DEPENDENCY";
      "AZURE_SEARCH_FIELDS_MAPPING" ]
  else if bool_decide (d = "AzureCosmosDB") then
    [ "AZURE_COSMOSDB_MONGO_VCORE_TOP_K"; "AZURE_COSMOSDB_MONGO_VCORE_STRICTNESS";
      "AZURE_COSMOSDB_MONGO_VCORE_ENABLE_IN_DOMAIN"; "AZURE_COSMOSDB_MONGO_VCORE_QUERY_TYPE";
      "AZURE_COSMOSDB_MONGO_VCORE_AUTHENTICATION";
      "AZURE_COSMOSDB_MONGO_VCORE_EMBEDDING_DEPENDENCY";
      "AZURE_COSMOSDB_MONGO_VCORE_FIELDS_MAPPING" ]
  else if bool_decide (d = "Elasticsearch") then
    [ "ELASTICSEARCH_TOP_K"; "ELASTICSEARCH_STRICTNESS"; "ELASTICSEARCH_ENABLE_IN_DOMAIN";
      "ELASTICSEARCH_QUERY_TYPE"; "ELASTICSEARCH_AUTHENTICATION";
      "ELASTICSEARCH_EMBEDDING_DEPENDENCY"; "ELASTICSEARCH_FIELDS_MAPPING" ]
  else if bool_decide (d = "Pinecone") then
    [ "PINECONE_TOP_K"; "PINECONE_STRICTNESS"; "PINECONE_ENABLE_IN_DOMAIN";
      "PINECONE_QUERY_TYPE"; "PINECONE_AUTHENTICATION"; "PINECONE_EMBEDDING_DEPENDENCY";
      "PINECONE_FIELDS_MAPPING" ]
  else if bool_decide (d = "AzureMLIndex") then
    [ "AZURE_MLINDEX_TOP_K"; "AZURE_MLINDEX_STRICTNESS"; "AZURE_MLINDEX_ENABLE_IN_DOMAIN";
      "AZURE_MLINDEX_FIELDS_MAPPING" ]
  else if bool_decide (d = "AzureSqlServer") then
    [ "AZURE_SQL_SERVER_SCHEMA_MAX_ROW"; "AZURE_SQL_SERVER_TOP_N_RESULTS";
      "AZURE_SQL_SERVER_PORT"; "AZURE_SQL_SERVER_AUTHENTICATION" ]
  else if bool_decide (d = "MongoDB") then
    [ "MONGODB_QUERY_TYPE"; "MONGODB_TOP_K"; "MONGODB_STRICTNESS";
      "MONGODB_ENABLE_IN_DOMAIN"; "MONGODB_AUTHENTICATION";
      "MONGODB_EMBEDDING_DEPENDENCY"; "MONGODB_FIELDS_MAPPING" ]
  else [].

(** An environment that supplies the required variables of backend [d]
    and none of its validated optional ones. *)
Definition minimal (env : gmap string string) (d : string) : bool :=
  forallb (fun k => bool_decide (is_Some (env_get env k))) (required_variables d)
  && forallb (fun k => bool_decide (env_get env k = None)) (validated_variables d).

(** A computation that raises nothing but [ValidationError]. *)
Definition validation_only {A} (r : result A) : Prop :=
  match r with
  | Ok _ => True
  | Raise e => is_validation_error e = true
  end.

(** ** The parameters map in the specification's words

    The non-null serializable fields of a model, and the union of those
    of a datasource with those of the search settings group, the
    datasource's own entry standing where both have the key. *)
Definition is_null (v : value) : bool :=
  match v with VNone => true | _ => false end.

Definition non_null_serializable (fs : list field) : gmap string value :=
  list_to_map
    ((fun f => (f_key f, f_value f))
       <$> filter (fun f => f_exclude f = false ∧ is_null (f_value f) = false) fs).

Definition spec_parameters (own search : list field) : gmap string value :=
  non_null_serializable own ∪ non_null_serializable search.

Definition search_keys : list string :=
  [ "max_search_queries"; "allow_partial_result"; "include_contexts";
    "vectorization_dimensions"; "role_information" ].

Definition is_sql_server (ds : DatasourcePayloadConstructor) : bool :=
  match ds with AzureSqlServer _ => true | _ => false end.

(** A relational-database instance built from an empty environment. *)
Definition example_sql_server : _AzureSqlServerSettings.t :=
  _AzureSqlServerSettings.mk None None None None None None None None.

Definition example_settings (ds : option DatasourcePayloadConstructor) : _AppSettings.t :=
  _AppSettings.mk (_BaseSettings.mk None true false false)
    example_openai example_search ds.

(** ** The two derived descriptors, read off an instance *)

(** The [fields_mapping] field of a datasource; the relational database
    class declares none. *)
Definition fields_mapping (ds : DatasourcePayloadConstructor)
  : option (list (string * value)) :=
  match ds with
  | AzureSearch s => _AzureSearchSettings.fields_mapping s
  | AzureCosmosDb s => _AzureCosmosDbMongoVcoreSettings.fields_mapping s
  | Elasticsearch s => _ElasticsearchSettings.fields_mapping s
  | Pinecone s => _PineconeSettings.fields_mapping s
  | AzureMLIndex s => _AzureMLIndexSettings.fields_mapping s
  | AzureSqlServer _ => None
  | MongoDb s => _MongoDbSettings.fields_mapping s
  end.

(** The five role columns of a datasource, in the order content, title,
    url, filename, vector. *)
Record role_columns : Type := Roles {
  content_role : option (list string);
  title_role : option string;
  url_role : option string;
  filepath_role : option string;
  vector_role : option (list string)
}.

Definition roles (ds : DatasourcePayloadConstructor) : option role_columns :=
  match ds with
  | AzureSearch s =>
      Some (Roles (_AzureSearchSettings.content_columns s)
              (_AzureSearchSettings.title_column s) (_AzureSearchSettings.url_column s)
              (_AzureSearchSettings.filename_column s)
              (_AzureSearchSettings.vector_columns s))
  | AzureCosmosDb s =>
      Some (Roles (_AzureCosmosDbMongoVcoreSettings.content_columns s)
              (_AzureCosmosDbMongoVcoreSettings.title_column s)
              (_AzureCosmosDbMongoVcoreSettings.url_column s)
              (_AzureCosmosDbMongoVcoreSettings.filename_column s)
              (_AzureCosmosDbMongoVcoreSettings.vector_columns s))
  | Elasticsearch s =>
      Some (Roles (_ElasticsearchSettings.content_columns s)
              (_ElasticsearchSettings.title_column s) (_ElasticsearchSettings.url_column s)
              (_ElasticsearchSettings.filename_column s)
              (_ElasticsearchSettings.vector_columns s))
  | Pinecone s =>
      Some (Roles (_PineconeSettings.content_columns s)
              (_PineconeSettings.title_column s) (_PineconeSettings.url_column s)
              (_PineconeSettings.filename_column s)
              (_PineconeSettings.vector_columns s))
  | AzureMLIndex s =>
      Some (Roles (_AzureMLIndexSettings.content_columns s)
              (_AzureMLIndexSettings.title_column s) (_AzureMLIndexSettings.url_column s)
              (_AzureMLIndexSettings.filename_column s)
              (_AzureMLIndexSettings.vector_columns s))
  | AzureSqlServer _ => None
  | MongoDb s =>
      Some (Roles (_MongoDbSettings.content_columns s)
              (_MongoDbSettings.title_column s) (_MongoDbSettings.url_column s)
              (_MongoDbSettings.filename_column s)
              (_MongoDbSettings.vector_columns s))
  end.

(** The descriptor with every role entered, an unset column as a null. *)
Definition roles_descriptor (r : role_columns) : value :=
  VDict [ ("content_fields", of_opt_strs (content_role r));
          ("title_field", of_opt_str (title_role r));
          ("url_field", of_opt_str (url_role r));
          ("filepath_field", of_opt_str (filepath_role r));
          ("vector_fields", of_opt_strs (vector_role r)) ].

(** The [authentication] field of a datasource; the ML index class
    declares none. *)
Definition authentication (ds : DatasourcePayloadConstructor)
  : option (list (string * value)) :=
  match ds with
  | AzureSearch s => _AzureSearchSettings.authentication s
  | AzureCosmosDb s => _AzureCosmosDbMongoVcoreSettings.authentication s
  | Elasticsearch s => _ElasticsearchSettings.authentication s
  | Pinecone s => _PineconeSettings.authentication s
  | AzureMLIndex _ => None
  | AzureSqlServer s => _AzureSqlServerSettings.authentication s
  | MongoDb s => _MongoDbSettings.authentication s
  end.

Definition ambient_identity : list (string * value) :=
  [ ("type", VStr "system_assigned_managed_identity") ].

(** [ds] is the instance its class constructor builds from [env]. *)
Definition constructed_from `{Collaborators} (env : gmap string string)
    (ds : DatasourcePayloadConstructor) : Prop :=
  match ds with
  | AzureSearch s => _AzureSearchSettings.__init__ env = Ok s
  | AzureCosmosDb s => _AzureCosmosDbMongoVcoreSettings.__init__ env = Ok s
  | Elasticsearch s => _ElasticsearchSettings.__init__ env = Ok s
  | Pinecone s => _PineconeSettings.__init__ env = Ok s
  | AzureMLIndex s => _AzureMLIndexSettings.__init__ env = Ok s
  | AzureSqlServer s => _AzureSqlServerSettings.__init__ env = Ok s
  | MongoDb s => _MongoDbSettings.__init__ env = Ok s
  end.

(** ** Endpoint derivation in the specification's words

    An explicit endpoint stands; failing that, a resource name gives
    [https://{resource}.{well-known-domain}]; failing both there is no
    endpoint. *)
Definition well_known_domain : string := "openai.azure.com".

Definition derived_endpoint (endpoint resource : option string) : option string :=
  match endpoint, resource with
  | Some e, _ => Some e
  | None, Some r => Some ("https://" +:+ r +:+ "." +:+ well_known_domain)
  | None, None => None
  end.

(** A field counts as configured when it holds text that is not
    empty. *)
Definition configured (o : option string) : option string :=
  if truthy o then o else None.

(** The validated fields of a model group that names a resource and no
    endpoint. *)
Definition example_openai_fields : _AzureOpenAISettings.t :=
  _AzureOpenAISettings.mk "gpt-4o" None (Some "contoso") None None None None.

(** ** Names used to state what a payload holds *)

(** The names of the fields the seven classes declare [exclude=True]:
    raw secrets, raw connection strings, short resource names, role
    columns and the transient filter. *)
Definition excluded_names : list string :=
  [ "service"; "endpoint_suffix"; "key"; "use_semantic_search";
    "content_columns"; "vector_columns"; "title_column"; "url_column";
    "filename_column"; "permitted_groups_column"; "filter";
    "connection_string"; "encoded_api_key"; "embedding_model_id";
    "api_key"; "username"; "password" ].

(** The [query_type] texts written in snake case. *)
Definition snake_query_types : list string :=
  [ "simple"; "vector"; "semantic"; "vector_simple_hybrid"; "vector_semantic_hybrid" ].

(** An environment in which the search index backend is given a key and
    a mixed-case query type. *)
Definition example_keyed_env : gmap string string :=
  list_to_map
    [ ("AZURE_SEARCH_SERVICE", "svc");
      ("AZURE_SEARCH_INDEX", "idx");
      ("AZURE_SEARCH_KEY", "s3cret");
      ("AZURE_SEARCH_QUERY_TYPE", "vectorSemanticHybrid");
      ("AZURE_SEARCH_ENDPOINT", "https://elsewhere.example") ].

(** An environment with the three variables the chat-history group
    requires. *)
Definition example_history_env : gmap string string :=
  list_to_map
    [ ("AZURE_COSMOSDB_DATABASE", "db");
      ("AZURE_COSMOSDB_ACCOUNT", "acct");
      ("AZURE_COSMOSDB_CONVERSATIONS_CONTAINER", "conversations") ].

(** An Elasticsearch instance that names a local embedding model. *)
Definition example_elasticsearch : _ElasticsearchSettings.t :=
  _ElasticsearchSettings.mk 5 3 true "https://es.example" "ZW5jb2RlZA==" "idx" "vector"
    None None None None None (Some "my-local-model")
    (Some [ ("type", VStr "encoded_api_key"); ("encoded_api_key", VStr "ZW5jb2RlZA==") ])
    None
    (Some (fields_mapping_of None None None None None)).

(** Model settings that name both an embedding deployment and an
    embedding endpoint with its key. *)
Definition example_openai_embedding : _AzureOpenAISettings.t :=
  _AzureOpenAISettings.mk "gpt-4o" None (Some "contoso")
    (Some "https://contoso.openai.azure.com")
    (Some "https://embed.example") (Some "embed-key") (Some "ada-002").

(** ** An authentication value supplied through the environment *)

(** The reference collaborators, with a JSON decoder that also reads
    the empty object. *)
Definition reference_reading_objects : Collaborators := {|
  parse_multi_columns := @parse_multi_columns reference;
  generateFilterString := @generateFilterString reference;
  json_loads := fun s =>
    if bool_decide (s = "{}") then Some (VDict []) else @json_loads reference s;
  str_to_int := @str_to_int reference;
  str_to_bool := @str_to_bool reference
|}.

(** An environment that sets nothing for the relational database
    backend but its [authentication] field, to the empty object. *)
Definition example_supplied_authentication_env : gmap string string :=
  list_to_map [ ("AZURE_SQL_SERVER_AUTHENTICATION", "{}") ].

(** ** What a call may write

    [ds'] is [ds] with no field changed but [filter] and
    [embedding_dependency]; the two classes that declare neither are
    unchanged. *)
Definition differs_only_in_transient_fields (ds ds' : DatasourcePayloadConstructor) : Prop :=
  match ds, ds' with
  | AzureSearch s, AzureSearch s' =>
      s' = _AzureSearchSettings.assign s
             (_AzureSearchSettings.query_type s) (_AzureSearchSettings.endpoint s)
             (_AzureSearchSettings.authentication s)
             (_AzureSearchSettings.embedding_dependency s')
             (_AzureSearchSettings.fields_mapping s)
             (_AzureSearchSettings.filter s')
  | AzureCosmosDb s, AzureCosmosDb s' =>
      s' = _AzureCosmosDbMongoVcoreSettings.assign s
             (_AzureCosmosDbMongoVcoreSettings.authentication s)
             (_AzureCosmosDbMongoVcoreSettings.embedding_dependency s')
             (_AzureCosmosDbMongoVcoreSettings.fields_mapping s)
  | Elasticsearch s, Elasticsearch s' =>
      s' = _ElasticsearchSettings.assign s
             (_ElasticsearchSettings.authentication s)
             (_ElasticsearchSettings.embedding_dependency s')
             (_ElasticsearchSettings.fields_mapping s)
  | Pinecone s, Pinecone s' =>
      s' = _PineconeSettings.assign s
             (_PineconeSettings.authentication s)
             (_PineconeSettings.embedding_dependency s')
             (_PineconeSettings.fields_mapping s)
  | MongoDb s, MongoDb s' =>
      s' = _MongoDbSettings.assign s
             (_MongoDbSettings.authentication s)
             (_MongoDbSettings.embedding_dependency s')
             (_MongoDbSettings.fields_mapping s)
  | AzureMLIndex s, AzureMLIndex s' => s' = s
  | AzureSqlServer s, AzureSqlServer s' => s' = s
  | _, _ => False
  end.

(** * Properties *)

(** ** Lookups in a dump *)

Lemma model_dump_nil : model_dump [] = ∅.
Proof. reflexivity. Qed.

Lemma model_dump_cons f fs :
  model_dump (f :: fs) =
  match dump_field f with
  | Some (k, v) => <[k := v]> (model_dump fs)
  | None => model_dump fs
  end.
Proof.
  unfold model_dump; simpl.
  destruct (dump_field f) as [[k v]|]; reflexivity.
Qed.

Lemma dump_field_key f k v : dump_field f = Some (k, v) → k = f_key f.
Proof.
  unfold dump_field.
  destruct (f_exclude f); [discriminate|].
  destruct (f_value f); intros [=]; congruence.
Qed.

Lemma lookup_model_dump_ne f fs k :
  f_key f ≠ k → model_dump (f :: fs) !! k = model_dump fs !! k.
Proof.
  intros Hne. rewrite model_dump_cons.
  destruct (dump_field f) as [[k' v]|] eqn:E; [|reflexivity].
  apply dump_field_key in E; subst k'.
  by rewrite lookup_insert_ne.
Qed.

Lemma lookup_model_dump_excluded f fs k :
  f_exclude f = true → model_dump (f :: fs) !! k = model_dump fs !! k.
Proof.
  intros Hex. rewrite model_dump_cons.
  unfold dump_field. by rewrite Hex.
Qed.

Lemma lookup_model_dump_here f fs :
  f_exclude f = false →
  model_dump (f :: fs) !! f_key f =
  match f_value f with
  | VNone => model_dump fs !! f_key f
  | v => Some v
  end.
Proof.
  intros Hin. rewrite model_dump_cons.
  unfold dump_field. rewrite Hin.
  destruct (f_value f); try reflexivity; by rewrite lookup_insert_eq.
Qed.

(** No dump ever holds an explicit null at its top level. *)
Lemma model_dump_no_null fs k : model_dump fs !! k ≠ Some VNone.
Proof.
  induction fs as [|f fs IH]; [by rewrite model_dump_nil, lookup_empty|].
  rewrite model_dump_cons.
  destruct (dump_field f) as [[k' v]|] eqn:E; [|exact IH].
  destruct (decide (k' = k)) as [->|Hne].
  - rewrite lookup_insert_eq. intros [= ->].
    unfold dump_field in E. destruct (f_exclude f); [discriminate|].
    destruct (f_value f); discriminate.
  - by rewrite lookup_insert_ne.
Qed.

(** Walks a dump of a literal field list down to the key asked for. *)
Ltac dump_lookup :=
  repeat first
    [ rewrite lookup_model_dump_excluded by reflexivity
    | rewrite lookup_model_dump_ne by (simpl; discriminate)
    | rewrite model_dump_nil, lookup_empty ].

Lemma azure_search_filter_never_dumped s k :
  k = "filter" → model_dump (_AzureSearchSettings.fields s) !! k = None.
Proof.
  intros ->. unfold _AzureSearchSettings.fields. by dump_lookup.
Qed.

Lemma search_filter_never_dumped se :
  model_dump (_SearchCommonSettings.fields se) !! "filter" = None.
Proof. unfold _SearchCommonSettings.fields. by dump_lookup. Qed.

Lemma azure_search_payload_no_filter `{Collaborators} ao se s request p s' :
  _AzureSearchSettings.construct_payload_configuration ao se s request = (Ok p, s') →
  parameters p !! "filter" = None.
Proof.
  unfold _AzureSearchSettings.construct_payload_configuration.
  intros Hcall.
  destruct (match request with Some _ => _ | None => _ end) as [s1|e];
    [|discriminate].
  injection Hcall as <- <-. simpl. unfold dict_update.
  apply lookup_union_None. split.
  - apply search_filter_never_dumped.
  - by apply azure_search_filter_never_dumped.
Qed.

Example example_azure_search_built :
  @_AzureSearchSettings.__init__ reference example_env = Ok example_azure_search.
Proof. vm_compute. reflexivity. Qed.

(** ** The access filter *)

Section AccessFilter.
Context `{Collaborators}.
Variables (ao : _AzureOpenAISettings.t) (se : _SearchCommonSettings.t).

Import _AzureSearchSettings.

(** With the column set and a token to read, the call writes the
    filter onto the instance and returns a payload. *)
Lemma call_with_token s r tok :
  truthy (permitted_groups_column s) = true →
  usable_token (Some r) = Some tok →
  construct_payload_configuration ao se s (Some r) =
    (Ok (Payload _type
           (dict_update
              (model_dump (fields
                 (with_embedding_dependency
                    (_AzureOpenAISettings.extract_embedding_dependency ao)
                    (with_filter (Some (generateFilterString tok)) s))))
              (model_dump (_SearchCommonSettings.fields se)))),
     with_embedding_dependency
       (_AzureOpenAISettings.extract_embedding_dependency ao)
       (with_filter (Some (generateFilterString tok)) s)).
Proof.
  intros Hcol Htok.
  unfold construct_payload_configuration, _set_filter_string, usable_token in *.
  rewrite Hcol.
  destruct (headers r !! "X-MS-TOKEN-AAD-ACCESS-TOKEN") as [t|]; [|discriminate].
  simpl. destruct (nonempty t); [|discriminate].
  injection Htok as ->. reflexivity.
Qed.

(** The dump does not depend on the [filter] field. *)
Lemma dump_ignores_filter s fl :
  model_dump (fields (with_filter fl s)) = model_dump (fields s).
Proof. reflexivity. Qed.

(** C1 (the code departs from the claim).  On an instance with a
    permitted-groups column, two calls in a row for two callers, each
    carrying a token, both return a payload.  Each call computes the
    filter of its own caller and writes it onto the instance, but the
    [filter] field is declared [exclude=True]: neither payload holds a
    [filter] key, and the two payloads are equal whatever the tokens
    are. *)
Theorem filter_computed_but_not_emitted s r1 r2 tok1 tok2 :
  truthy (permitted_groups_column s) = true →
  usable_token (Some r1) = Some tok1 →
  usable_token (Some r2) = Some tok2 →
  ∃ p1 s1 p2 s2,
    construct_payload_configuration ao se s (Some r1) = (Ok p1, s1)
    ∧ construct_payload_configuration ao se s1 (Some r2) = (Ok p2, s2)
    ∧ filter s1 = Some (generateFilterString tok1)
    ∧ filter s2 = Some (generateFilterString tok2)
    ∧ parameters p1 !! "filter" = None
    ∧ parameters p2 !! "filter" = None
    ∧ p1 = p2.
Proof.
  intros Hcol H1 H2.
  pose proof (call_with_token s r1 tok1 Hcol H1) as E1.
  set (s1 := with_embedding_dependency _ (with_filter (Some (generateFilterString tok1)) s)) in E1.
  assert (Hcol1 : truthy (permitted_groups_column s1) = true) by exact Hcol.
  pose proof (call_with_token s1 r2 tok2 Hcol1 H2) as E2.
  eexists _, s1, _, _. split; [exact E1|]. split; [exact E2|].
  split; [reflexivity|]. split; [reflexivity|].
  split; [|split].
  - eapply azure_search_payload_no_filter, E1.
  - eapply azure_search_payload_no_filter, E2.
  - reflexivity.
Qed.

(** C7 (as amended).  A call that has no usable token to read: when a
    request is supplied and the permitted-groups column is set, it
    raises the missing-token error and leaves the instance as it was;
    when the column is unset, or when no request is supplied at all,
    it returns a payload whose parameters hold no [filter] key and
    leaves the instance's filter as it was. *)
Theorem missing_token_cases s request :
  usable_token request = None →
  if bool_decide (is_Some request) && truthy (permitted_groups_column s)
  then construct_payload_configuration ao se s request
       = (Raise (ValueError missing_token_message), s)
  else ∃ p s',
         construct_payload_configuration ao se s request = (Ok p, s')
         ∧ parameters p !! "filter" = None
         ∧ filter s' = filter s.
Proof.
  intros Htok.
  destruct request as [r|]; simpl.
  - destruct (truthy (permitted_groups_column s)) eqn:Hcol; simpl.
    + unfold construct_payload_configuration, _set_filter_string. rewrite Hcol.
      unfold usable_token in Htok.
      destruct (headers r !! "X-MS-TOKEN-AAD-ACCESS-TOKEN") as [t|]; simpl.
      * destruct (nonempty t); [discriminate|reflexivity].
      * reflexivity.
    + eexists _, _. split.
      * unfold construct_payload_configuration. rewrite Hcol. reflexivity.
      * split; [|reflexivity].
        eapply (azure_search_payload_no_filter ao se s (Some r)).
        unfold construct_payload_configuration. rewrite Hcol. reflexivity.
  - eexists _, _. split; [reflexivity|]. split; [|reflexivity].
    eapply (azure_search_payload_no_filter ao se s None). reflexivity.
Qed.
End AccessFilter.

Lemma filter_computed_but_not_emitted_witness :
  ∃ p1 s1 p2 s2,
    @_AzureSearchSettings.construct_payload_configuration reference
      example_openai example_search example_azure_search
      (Some (request_with_token "alice")) = (Ok p1, s1)
    ∧ @_AzureSearchSettings.construct_payload_configuration reference
        example_openai example_search s1
        (Some (request_with_token "bob")) = (Ok p2, s2)
    ∧ _AzureSearchSettings.filter s1 = Some (@generateFilterString reference "alice")
    ∧ _AzureSearchSettings.filter s2 = Some (@generateFilterString reference "bob")
    ∧ parameters p1 !! "filter" = None
    ∧ parameters p2 !! "filter" = None
    ∧ p1 = p2.
Proof.
  apply (@filter_computed_but_not_emitted reference example_openai example_search
           example_azure_search (request_with_token "alice") (request_with_token "bob")
           "alice" "bob"); reflexivity.
Defined.

Lemma missing_token_cases_witness :
  @_AzureSearchSettings.construct_payload_configuration reference
    example_openai example_search example_azure_search (Some request_without_token)
  = (Raise (ValueError missing_token_message), example_azure_search).
Proof.
  exact (@missing_token_cases reference example_openai example_search
           example_azure_search (Some request_without_token) eq_refl).
Defined.

(** C7 (as stated) fails when no request is supplied: the column is
    set, there is no token, and the call returns a payload instead of
    raising. *)
Lemma no_request_skips_the_filter :
  truthy (_AzureSearchSettings.permitted_groups_column example_azure_search) = true
  ∧ usable_token None = None
  ∧ is_ok (@_AzureSearchSettings.construct_payload_configuration reference
             example_openai example_search example_azure_search None).1 = true.
Proof. repeat split. Qed.

(** ** Which exceptions a constructor can raise *)

Lemma validation_only_bind {A B} (m : result A) (f : A → result B) :
  validation_only m → (∀ a, validation_only (f a)) → validation_only (m ≫= f).
Proof. destruct m as [a|e]; simpl; [intros _ Hf; apply Hf | intros He _; exact He]. Qed.

Lemma validation_only_Ok {A} (a : A) : validation_only (Ok a).
Proof. exact I. Qed.

Section Readers.
Context `{Collaborators}.
Variable env : gmap string string.

Lemma validation_only_required k : validation_only (required env k).
Proof. unfold required. by destruct (env_get env k). Qed.

Lemma validation_only_int_field k d : validation_only (int_field env k d).
Proof.
  unfold int_field. destruct (env_get env k) as [raw|]; [|done].
  by destruct (str_to_int raw).
Qed.

Lemma validation_only_opt_int_field k : validation_only (opt_int_field env k).
Proof.
  unfold opt_int_field. destruct (env_get env k) as [raw|]; [|done].
  by destruct (str_to_int raw).
Qed.

Lemma validation_only_bool_field k d : validation_only (bool_field env k d).
Proof.
  unfold bool_field. destruct (env_get env k) as [raw|]; [|done].
  by destruct (str_to_bool raw).
Qed.

Lemma validation_only_dict_field k : validation_only (dict_field env k).
Proof.
  unfold dict_field. destruct (env_get env k) as [raw|]; [|done].
  by destruct (decode_complex raw).
Qed.

Lemma validation_only_literal_field k allowed d :
  validation_only (literal_field env k allowed d).
Proof.
  unfold literal_field. destruct (env_get env k) as [raw|]; [|done].
  by case_bool_decide.
Qed.

(** A variable that is absent leaves the declared default. *)
Lemma int_field_absent k d : env_get env k = None → int_field env k d = Ok d.
Proof. unfold int_field. by intros ->. Qed.

Lemma opt_int_field_absent k : env_get env k = None → opt_int_field env k = Ok None.
Proof. unfold opt_int_field. by intros ->. Qed.

Lemma bool_field_absent k d : env_get env k = None → bool_field env k d = Ok d.
Proof. unfold bool_field. by intros ->. Qed.

Lemma dict_field_absent k : env_get env k = None → dict_field env k = Ok None.
Proof. unfold dict_field. by intros ->. Qed.

Lemma literal_field_absent k allowed d :
  env_get env k = None → literal_field env k allowed d = Ok d.
Proof. unfold literal_field. by intros ->. Qed.

Lemma required_present k v : env_get env k = Some v → required env k = Ok v.
Proof. unfold required. by intros ->. Qed.

Lemma required_absent k :
  env_get env k = None → required env k = Raise (ValidationError k "Field required").
Proof. unfold required. by intros ->. Qed.

(** What the environment yields is never the empty text. *)
Lemma env_get_nonempty k v : env_get env k = Some v → nonempty v = true.
Proof.
  unfold env_get. destruct (env !! k) as [s|]; [|discriminate].
  destruct (nonempty s) eqn:E; [|discriminate]. by intros [= <-].
Qed.

Lemma env_get_truthy k : truthy (env_get env k) = bool_decide (is_Some (env_get env k)).
Proof.
  destruct (env_get env k) as [v|] eqn:E; simpl.
  - by apply env_get_nonempty in E.
  - reflexivity.
Qed.
End Readers.

Create HintDb validation.
#[local] Hint Resolve validation_only_Ok validation_only_required
  validation_only_int_field validation_only_opt_int_field
  validation_only_bool_field validation_only_dict_field
  validation_only_literal_field : validation.

Ltac validation_only_steps :=
  repeat (apply validation_only_bind; [auto with validation | intros ?]);
  auto with validation.

Section Constructors.
Context `{Collaborators}.
Variable env : gmap string string.

Lemma azure_search_init_validation_only :
  validation_only (_AzureSearchSettings.__init__ env).
Proof.
  unfold _AzureSearchSettings.__init__, _AzureSearchSettings.validate_fields.
  validation_only_steps.
Qed.

Lemma cosmos_init_validation_only :
  validation_only (_AzureCosmosDbMongoVcoreSettings.__init__ env).
Proof.
  unfold _AzureCosmosDbMongoVcoreSettings.__init__,
    _AzureCosmosDbMongoVcoreSettings.validate_fields.
  validation_only_steps.
Qed.

Lemma elasticsearch_init_validation_only :
  validation_only (_ElasticsearchSettings.__init__ env).
Proof.
  unfold _ElasticsearchSettings.__init__, _ElasticsearchSettings.validate_fields.
  validation_only_steps.
Qed.

Lemma pinecone_init_validation_only :
  validation_only (_PineconeSettings.__init__ env).
Proof.
  unfold _PineconeSettings.__init__, _PineconeSettings.validate_fields.
  validation_only_steps.
Qed.

Lemma ml_index_init_validation_only :
  validation_only (_AzureMLIndexSettings.__init__ env).
Proof.
  unfold _AzureMLIndexSettings.__init__, _AzureMLIndexSettings.validate_fields.
  validation_only_steps.
Qed.

Lemma sql_server_init_validation_only :
  validation_only (_AzureSqlServerSettings.__init__ env).
Proof.
  unfold _AzureSqlServerSettings.__init__, _AzureSqlServerSettings.validate_fields.
  validation_only_steps.
Qed.

Lemma mongo_init_validation_only :
  validation_only (_MongoDbSettings.__init__ env).
Proof.
  unfold _MongoDbSettings.__init__, _MongoDbSettings.validate_fields.
  validation_only_steps.
Qed.

Lemma try_datasource_validation_only dt :
  validation_only (_AppSettings.try_datasource env dt).
Proof.
  unfold _AppSettings.try_datasource.
  repeat case_bool_decide;
    try (apply validation_only_bind; [|intros ?; exact I]);
    auto using azure_search_init_validation_only, cosmos_init_validation_only,
      elasticsearch_init_validation_only, pinecone_init_validation_only,
      ml_index_init_validation_only, sql_server_init_validation_only,
      mongo_init_validation_only.
  exact I.
Qed.
End Constructors.

(** ** The root's choice of a datasource *)

Section Root.
Context `{Collaborators}.
Variable env : gmap string string.
Variables (base : _BaseSettings.t) (ao : _AzureOpenAISettings.t)
          (se : _SearchCommonSettings.t).

(** C2.  Whatever the discriminator, when the constructor of the
    chosen datasource class raises, what it raises is a validation
    error, the root catches it, logs the warning and the errors, and
    its own construction completes with no datasource. *)
Theorem datasource_failure_degrades e :
  _AppSettings.try_datasource env (_BaseSettings.datasource_type base) = Raise e →
  is_validation_error e = true
  ∧ _AppSettings.__init__ env base ao se =
      (Ok (_AppSettings.mk base ao se None),
       [ LogWarning _AppSettings.no_datasource_message; LogWarningErrors e ]).
Proof.
  intros Hraise.
  pose proof (try_datasource_validation_only env (_BaseSettings.datasource_type base)) as Hv.
  rewrite Hraise in Hv. simpl in Hv. split; [exact Hv|].
  unfold _AppSettings.__init__, _AppSettings.set_datasource_settings. simpl.
  rewrite Hraise. destruct e; first [reflexivity | discriminate].
Qed.

(** C9.  A discriminator outside the seven recognized values, or none
    at all: the root completes with no datasource, logging one
    warning; the active datasource is none and so is the payload. *)
Theorem unrecognized_discriminator_no_datasource request :
  recognized (_BaseSettings.datasource_type base) = false →
  _AppSettings.__init__ env base ao se =
    (Ok (_AppSettings.mk base ao se None),
     [ LogWarning _AppSettings.no_datasource_message ])
  ∧ activeDatasource (_AppSettings.mk base ao se None) = None
  ∧ constructDatasourcePayload (_AppSettings.mk base ao se None) request = None.
Proof.
  intros Hrec. split; [|split; reflexivity].
  unfold _AppSettings.__init__, _AppSettings.set_datasource_settings,
    _AppSettings.try_datasource. simpl.
  destruct (_BaseSettings.datasource_type base) as [d|]; [|reflexivity].
  simpl in Hrec. apply bool_decide_eq_false in Hrec.
  repeat (case_bool_decide as Hd;
          [ exfalso; apply Hrec; injection Hd as ->; set_solver | clear Hd ]).
  reflexivity.
Qed.
End Root.

Lemma datasource_failure_degrades_witness :
  is_validation_error (ValidationError "AZURE_SEARCH_SERVICE" "Field required") = true
  ∧ @_AppSettings.__init__ reference ∅
      (_BaseSettings.mk (Some "AzureCognitiveSearch") true false false)
      example_openai example_search
    = (Ok (_AppSettings.mk
             (_BaseSettings.mk (Some "AzureCognitiveSearch") true false false)
             example_openai example_search None),
       [ LogWarning _AppSettings.no_datasource_message;
         LogWarningErrors (ValidationError "AZURE_SEARCH_SERVICE" "Field required") ]).
Proof.
  apply (@datasource_failure_degrades reference ∅
           (_BaseSettings.mk (Some "AzureCognitiveSearch") true false false)
           example_openai example_search).
  vm_compute. reflexivity.
Defined.

Lemma unrecognized_discriminator_no_datasource_witness :
  @_AppSettings.__init__ reference example_env
      (_BaseSettings.mk (Some "Qdrant") true false false) example_openai example_search
    = (Ok (_AppSettings.mk (_BaseSettings.mk (Some "Qdrant") true false false)
             example_openai example_search None),
       [ LogWarning _AppSettings.no_datasource_message ])
  ∧ activeDatasource
      (_AppSettings.mk (_BaseSettings.mk (Some "Qdrant") true false false)
         example_openai example_search None) = None
  ∧ @constructDatasourcePayload reference
      (_AppSettings.mk (_BaseSettings.mk (Some "Qdrant") true false false)
         example_openai example_search None) None = None.
Proof.
  apply (@unrecognized_discriminator_no_datasource reference example_env
           (_BaseSettings.mk (Some "Qdrant") true false false)
           example_openai example_search None).
  vm_compute. reflexivity.
Defined.

(** ** Minimal environments *)

(** Turns [minimal env d = true], for a literal [d], into one hypothesis
    on [env_get] per listed variable. *)
Ltac open_minimal H :=
  unfold minimal in H;
  match type of H with
  | context [required_variables ?d] =>
      let r := eval vm_compute in (required_variables d) in
      change (required_variables d) with r in H;
      let v := eval vm_compute in (validated_variables d) in
      change (validated_variables d) with v in H
  end;
  cbn [forallb] in H;
  rewrite ?andb_true_iff, ?bool_decide_eq_true in H;
  destruct_and?;
  repeat match goal with
  | Hs : is_Some (env_get _ _) |- _ => destruct Hs as [? Hs]
  end.

Ltac read_fields :=
  repeat first
    [ rewrite int_field_absent by assumption
    | rewrite opt_int_field_absent by assumption
    | rewrite bool_field_absent by assumption
    | rewrite dict_field_absent by assumption
    | rewrite literal_field_absent by assumption
    | erewrite required_present by eassumption ];
  cbn [mbind result_bind rbind].

Section MinimalEnvironment.
Context `{Collaborators}.
Variable env : gmap string string.
Variables (base : _BaseSettings.t) (ao : _AzureOpenAISettings.t)
          (se : _SearchCommonSettings.t).

(** C6.  For each of the seven discriminator values, an environment
    that supplies the required variables of that backend makes the
    root hold a datasource whose type tag is the expected one, and the
    payload this datasource constructs carries that tag. *)
Theorem recognized_discriminator_yields_tag d tag :
  (d, tag) ∈ backends →
  _BaseSettings.datasource_type base = Some d →
  minimal env d = true →
  ∃ ds p ds',
    (_AppSettings.__init__ env base ao se).1
      = Ok (_AppSettings.mk base ao se (Some ds))
    ∧ _type ds = tag
    ∧ construct_payload_configuration (_AppSettings.mk base ao se (Some ds)) ds None
      = (Ok p, ds')
    ∧ type p = tag.
Proof.
  intros Hin Hdt Hmin.
  unfold backends in Hin.
  repeat (apply elem_of_cons in Hin as [Hin|Hin];
          [ injection Hin as -> -> | ]);
    [ .. | by apply elem_of_nil in Hin ];
    open_minimal Hmin;
    unfold _AppSettings.__init__, _AppSettings.set_datasource_settings,
      _AppSettings.try_datasource;
    cbn [_AppSettings.base_settings]; rewrite Hdt; simpl.
  - unfold _AzureSearchSettings.__init__, _AzureSearchSettings.validate_fields.
    read_fields. simpl. eexists _, _, _. repeat split.
  - unfold _AzureCosmosDbMongoVcoreSettings.__init__,
      _AzureCosmosDbMongoVcoreSettings.validate_fields.
    read_fields. simpl. eexists _, _, _. repeat split.
  - unfold _ElasticsearchSettings.__init__, _ElasticsearchSettings.validate_fields.
    read_fields. simpl. eexists _, _, _. repeat split.
  - unfold _PineconeSettings.__init__, _PineconeSettings.validate_fields.
    read_fields. simpl. eexists _, _, _. repeat split.
  - unfold _AzureMLIndexSettings.__init__, _AzureMLIndexSettings.validate_fields.
    read_fields. simpl. eexists _, _, _. repeat split.
  - unfold _AzureSqlServerSettings.__init__, _AzureSqlServerSettings.validate_fields.
    read_fields. simpl. eexists _, _, _. repeat split.
  - unfold _MongoDbSettings.__init__, _MongoDbSettings.validate_fields.
    read_fields. simpl. eexists _, _, _. repeat split.
Qed.
End MinimalEnvironment.

Lemma recognized_discriminator_yields_tag_witness :
  ∃ ds p ds',
    (@_AppSettings.__init__ reference example_env
       (_BaseSettings.mk (Some "AzureCognitiveSearch") true false false)
       example_openai example_search).1
      = Ok (_AppSettings.mk
              (_BaseSettings.mk (Some "AzureCognitiveSearch") true false false)
              example_openai example_search (Some ds))
    ∧ _type ds = "azure_search"
    ∧ @construct_payload_configuration reference
        (_AppSettings.mk
           (_BaseSettings.mk (Some "AzureCognitiveSearch") true false false)
           example_openai example_search (Some ds)) ds None
      = (Ok p, ds')
    ∧ type p = "azure_search".
Proof.
  apply (@recognized_discriminator_yields_tag reference example_env
           (_BaseSettings.mk (Some "AzureCognitiveSearch") true false false)
           example_openai example_search "AzureCognitiveSearch" "azure_search").
  - set_solver.
  - reflexivity.
  - vm_compute. reflexivity.
Defined.
(** ** The parameters map *)

Lemma model_dump_non_null_serializable fs :
  model_dump fs = non_null_serializable fs.
Proof.
  unfold non_null_serializable.
  induction fs as [|f fs IH]; [reflexivity|].
  rewrite model_dump_cons, IH, filter_cons. unfold dump_field.
  destruct f as [k ex v]; simpl.
  destruct ex, v; case_decide as Hd; simpl in *;
    try reflexivity; try (by destruct Hd); by exfalso; apply Hd.
Qed.

Lemma search_dump_keys se k v :
  model_dump (_SearchCommonSettings.fields se) !! k = Some v → k ∈ search_keys.
Proof.
  unfold _SearchCommonSettings.fields, search_keys.
  repeat match goal with
  | |- model_dump (Field ?key _ _ :: _) !! _ = _ → _ =>
      destruct (decide (key = k)) as [<-|Hne];
      [ intros _; set_solver
      | rewrite lookup_model_dump_ne by exact Hne; clear Hne ]
  end.
  rewrite model_dump_nil, lookup_empty. discriminate.
Qed.

Lemma own_dump_has_no_search_key ds k :
  k ∈ search_keys → model_dump (own_fields ds) !! k = None.
Proof.
  unfold search_keys. intros Hk.
  repeat (apply elem_of_cons in Hk as [->|Hk]);
    [ .. | by apply elem_of_nil in Hk ];
    destruct ds; cbn [own_fields];
    unfold _AzureSearchSettings.fields, _AzureCosmosDbMongoVcoreSettings.fields,
      _ElasticsearchSettings.fields, _PineconeSettings.fields,
      _AzureMLIndexSettings.fields, _AzureSqlServerSettings.fields,
      _MongoDbSettings.fields;
    by dump_lookup.
Qed.

Lemma own_search_disjoint ds se :
  model_dump (own_fields ds) ##ₘ model_dump (_SearchCommonSettings.fields se).
Proof.
  apply map_disjoint_spec. intros k x y Hown Hsearch.
  apply search_dump_keys in Hsearch.
  rewrite (own_dump_has_no_search_key ds k Hsearch) in Hown. discriminate.
Qed.

(** The in-place update gives the union in which the datasource's own
    entries stand first: there is no key the two dumps share. *)
Lemma dict_update_spec_parameters ds se :
  dict_update (model_dump (own_fields ds)) (model_dump (_SearchCommonSettings.fields se))
  = spec_parameters (own_fields ds) (_SearchCommonSettings.fields se).
Proof.
  unfold dict_update, spec_parameters.
  rewrite <- !model_dump_non_null_serializable.
  symmetry. apply map_union_comm, own_search_disjoint.
Qed.

Lemma dict_update_no_null fs gs k :
  dict_update (model_dump fs) (model_dump gs) !! k ≠ Some VNone.
Proof.
  unfold dict_update. intros [Hl|[_ Hr]]%lookup_union_Some_raw.
  - by apply model_dump_no_null in Hl.
  - by apply model_dump_no_null in Hr.
Qed.

(** C3 (as amended).  Whenever [construct_payload_configuration]
    returns, the payload carries the type tag of the datasource, and no
    parameter is an explicit null.  For every class but the relational
    database one, the parameters are the non-null serializable fields of
    the instance, as the call leaves it, united with those of the search
    settings, the two sets of keys being disjoint; the relational
    database class emits its own fields alone.  The call raises only on
    the search index class, when a request is supplied, the
    permitted-groups column is set and no token can be read, and the
    instance is then unchanged. *)
Theorem payload_parameters `{Collaborators} settings ds request :
  match construct_payload_configuration settings ds request with
  | (Ok p, ds') =>
      type p = _type ds
      ∧ parameters p =
          (if is_sql_server ds then non_null_serializable (own_fields ds')
           else spec_parameters (own_fields ds')
                  (_SearchCommonSettings.fields (_AppSettings.search settings)))
      ∧ ∀ k, parameters p !! k ≠ Some VNone
  | (Raise e, ds') =>
      ds' = ds
      ∧ ∃ s, ds = AzureSearch s
             ∧ is_Some request
             ∧ truthy (_AzureSearchSettings.permitted_groups_column s) = true
             ∧ usable_token request = None
  end.
Proof.
  destruct ds as [s|s|s|s|s|s|s]; cbn [construct_payload_configuration].
  - unfold _AzureSearchSettings.construct_payload_configuration,
      _AzureSearchSettings._set_filter_string, usable_token.
    destruct request as [r|];
      [ destruct (truthy (_AzureSearchSettings.permitted_groups_column s)) eqn:Hcol;
        [ destruct (headers r !! "X-MS-TOKEN-AAD-ACCESS-TOKEN") as [tok|];
          [ cbn -[model_dump dict_update]; destruct (nonempty tok) | ] | ] | ];
      cbn -[model_dump dict_update];
      first
        [ split; [reflexivity|]; eexists; split; [reflexivity|];
          split; [by eexists|]; split; [assumption|reflexivity]
        | split; [reflexivity|]; split;
          [ apply (dict_update_spec_parameters (AzureSearch _))
          | intros k; apply dict_update_no_null ] ].
  - cbn -[model_dump dict_update]. split; [reflexivity|]. split;
      [ apply (dict_update_spec_parameters (AzureCosmosDb _))
      | intros k; apply dict_update_no_null ].
  - cbn -[model_dump dict_update]. split; [reflexivity|]. split;
      [ apply (dict_update_spec_parameters (Elasticsearch _))
      | intros k; apply dict_update_no_null ].
  - cbn -[model_dump dict_update]. split; [reflexivity|]. split;
      [ apply (dict_update_spec_parameters (Pinecone _))
      | intros k; apply dict_update_no_null ].
  - cbn -[model_dump dict_update]. split; [reflexivity|]. split;
      [ apply (dict_update_spec_parameters (AzureMLIndex _))
      | intros k; apply dict_update_no_null ].
  - cbn -[model_dump dict_update]. split; [reflexivity|]. split;
      [ apply model_dump_non_null_serializable
      | intros k; apply model_dump_no_null ].
  - cbn -[model_dump dict_update]. split; [reflexivity|]. split;
      [ apply (dict_update_spec_parameters (MongoDb _))
      | intros k; apply dict_update_no_null ].
Qed.

(** C3 (as stated) fails on the relational database class: the search
    settings always dump [role_information], the union of the
    specification holds it, the payload does not. *)
Lemma sql_server_payload_leaves_search_settings_out :
  ∃ p ds',
    @construct_payload_configuration reference
      (example_settings (Some (AzureSqlServer example_sql_server)))
      (AzureSqlServer example_sql_server) None = (Ok p, ds')
    ∧ parameters p !! "role_information" = None
    ∧ spec_parameters (own_fields ds') (_SearchCommonSettings.fields example_search)
        !! "role_information"
      = Some (VStr "You are an AI assistant that helps people find information.").
Proof.
  eexists _, _. split; [reflexivity|]. split; vm_compute; reflexivity.
Qed.
(** ** The field-mapping descriptor *)

Lemma azure_search_call_inv `{Collaborators} ao se s request p s' :
  _AzureSearchSettings.construct_payload_configuration ao se s request = (Ok p, s') →
  ∃ fl,
    s' = _AzureSearchSettings.with_embedding_dependency
           (_AzureOpenAISettings.extract_embedding_dependency ao)
           (_AzureSearchSettings.with_filter fl s)
    ∧ p = Payload _AzureSearchSettings._type
            (dict_update (model_dump (_AzureSearchSettings.fields s'))
                         (model_dump (_SearchCommonSettings.fields se))).
Proof.
  unfold _AzureSearchSettings.construct_payload_configuration.
  destruct (match request with Some _ => _ | None => _ end) as [s1|e] eqn:E;
    [|discriminate].
  intros [= <- <-].
  assert (∃ fl, s1 = _AzureSearchSettings.with_filter fl s) as [fl ->].
  { destruct request as [r|].
    - destruct (truthy _).
      + destruct (_AzureSearchSettings._set_filter_string s r) as [fl|]; [|discriminate].
        injection E as <-. by exists fl.
      + injection E as <-. exists (_AzureSearchSettings.filter s). by destruct s.
    - injection E as <-. exists (_AzureSearchSettings.filter s). by destruct s. }
  by exists fl.
Qed.

Lemma search_dump_lacks k se :
  k ∉ search_keys → model_dump (_SearchCommonSettings.fields se) !! k = None.
Proof.
  intros Hk. destruct (model_dump _ !! k) eqn:E; [|reflexivity].
  by apply search_dump_keys in E.
Qed.

Lemma dict_update_lookup_own fs se k :
  k ∉ search_keys →
  dict_update (model_dump fs) (model_dump (_SearchCommonSettings.fields se)) !! k
  = model_dump fs !! k.
Proof.
  intros Hk. unfold dict_update.
  apply lookup_union_r, search_dump_lacks, Hk.
Qed.

Lemma lookup_model_dump_field k v fs :
  model_dump (Field k false v :: fs) !! k =
  match v with
  | VNone => model_dump fs !! k
  | _ => Some v
  end.
Proof.
  pose proof (lookup_model_dump_here (Field k false v) fs eq_refl) as E.
  cbn [f_key f_value] in E. rewrite E. by destruct v.
Qed.

(** Reads the entry of a non-excluded field out of a literal field
    list. *)
Ltac dump_lookup_here := dump_lookup; rewrite lookup_model_dump_field.

Ltac not_a_search_key :=
  let Hin := fresh in
  intros Hin; unfold search_keys in Hin;
  repeat (apply elem_of_cons in Hin as [Hin|Hin]; [discriminate|]);
  by apply elem_of_nil in Hin.

Lemma payload_fields_mapping `{Collaborators} settings ds request p ds' :
  construct_payload_configuration settings ds request = (Ok p, ds') →
  parameters p !! "fields_mapping" = VDict <$> fields_mapping ds.
Proof.
  assert (Hk : "fields_mapping" ∉ search_keys) by not_a_search_key.
  destruct ds as [s|s|s|s|s|s|s]; cbn [construct_payload_configuration fields_mapping].
  - destruct (_AzureSearchSettings.construct_payload_configuration _ _ s request)
      as [r s1] eqn:E.
    intros [= -> <-].
    apply azure_search_call_inv in E as (fl & -> & ->).
    cbn [parameters]. rewrite dict_update_lookup_own by exact Hk.
    unfold _AzureSearchSettings.fields. dump_lookup_here.
    destruct s as [? ? ? ? ? ? ? ? ? ? ? ? ? ? ? ? ? ? ? [fm|] ?]; cbn; [reflexivity|].
    by dump_lookup.
  - intros [= <- <-]. cbn [parameters]. rewrite dict_update_lookup_own by exact Hk.
    unfold _AzureCosmosDbMongoVcoreSettings.fields. dump_lookup_here.
    destruct s as [? ? ? ? ? ? ? ? ? ? ? ? ? ? ? [fm|]]; cbn; [reflexivity|].
    by dump_lookup.
  - intros [= <- <-]. cbn [parameters]. rewrite dict_update_lookup_own by exact Hk.
    unfold _ElasticsearchSettings.fields. dump_lookup_here.
    destruct s as [? ? ? ? ? ? ? ? ? ? ? ? ? ? ? [fm|]]; cbn; [reflexivity|].
    by dump_lookup.
  - intros [= <- <-]. cbn [parameters]. rewrite dict_update_lookup_own by exact Hk.
    unfold _PineconeSettings.fields. dump_lookup_here.
    destruct s as [? ? ? ? ? ? ? ? ? ? ? ? ? ? [fm|]]; cbn; [reflexivity|].
    by dump_lookup.
  - intros [= <- <-]. cbn [parameters]. rewrite dict_update_lookup_own by exact Hk.
    unfold _AzureMLIndexSettings.fields. dump_lookup_here.
    destruct s as [? ? ? ? ? ? ? ? ? ? ? [fm|]]; cbn; [reflexivity|].
    by dump_lookup.
  - intros [= <- <-]. cbn [parameters].
    unfold _AzureSqlServerSettings.fields. by dump_lookup.
  - intros [= <- <-]. cbn [parameters]. rewrite dict_update_lookup_own by exact Hk.
    unfold _MongoDbSettings.fields. dump_lookup_here.
    destruct s as [? ? ? ? ? ? ? ? ? ? ? ? ? ? ? ? ? ? [fm|]]; cbn; [reflexivity|].
    by dump_lookup.
Qed.

(** Unfolds a constructor call that returned: exposes the validated
    fields and the validators applied to them. *)
Ltac open_init H :=
  unfold _AzureSearchSettings.__init__, _AzureCosmosDbMongoVcoreSettings.__init__,
    _ElasticsearchSettings.__init__, _PineconeSettings.__init__,
    _AzureMLIndexSettings.__init__, _AzureSqlServerSettings.__init__,
    _MongoDbSettings.__init__ in H;
  match type of H with
  | ?v ≫= _ = Ok _ =>
      let raw := fresh "raw" in
      let Hraw := fresh "Hraw" in
      destruct v as [raw|] eqn:Hraw; [|discriminate];
      cbn [mbind result_bind rbind] in H;
      injection H as <-
  end.

Lemma try_datasource_constructed `{Collaborators} env dt ds record :
  _AppSettings.try_datasource env dt = Ok (Some ds, record) → constructed_from env ds.
Proof.
  unfold _AppSettings.try_datasource.
  repeat case_bool_decide;
    try match goal with
    | |- ?v ≫= _ = _ → _ =>
        destruct v eqn:E; cbn [mbind result_bind rbind]; [|discriminate];
        intros [= <- <-]; exact E
    end.
  discriminate.
Qed.

Lemma constructed_fields_mapping `{Collaborators} env ds :
  constructed_from env ds →
  VDict <$> fields_mapping ds = roles_descriptor <$> roles ds.
Proof.
  destruct ds as [s|s|s|s|s|s|s]; cbn [constructed_from]; intros Hinit;
    try (open_init Hinit); reflexivity.
Qed.

(** C4 (as amended).  For a datasource built by its constructor, whatever
    its five role columns hold, the payload carries the field-mapping
    descriptor with all five roles entered: a role whose column is set
    holds the column, a role whose column is unset is entered with a
    null.  The relational database class, which has no role columns,
    emits no descriptor. *)
Theorem fields_mapping_enters_every_role `{Collaborators}
    env settings ds request p ds' :
  constructed_from env ds →
  construct_payload_configuration settings ds request = (Ok p, ds') →
  parameters p !! "fields_mapping" = roles_descriptor <$> roles ds.
Proof.
  intros Hinit Hcall.
  rewrite (payload_fields_mapping _ _ _ _ _ Hcall).
  exact (constructed_fields_mapping env ds Hinit).
Qed.

Lemma fields_mapping_enters_every_role_witness :
  parameters
    (Payload "azure_search"
       (dict_update
          (model_dump (_AzureSearchSettings.fields example_azure_search))
          (model_dump (_SearchCommonSettings.fields example_search))))
    !! "fields_mapping"
  = roles_descriptor <$> roles (AzureSearch example_azure_search).
Proof.
  apply (@fields_mapping_enters_every_role reference example_env
           (example_settings (Some (AzureSearch example_azure_search)))
           (AzureSearch example_azure_search) None _
           (AzureSearch example_azure_search)).
  - vm_compute. reflexivity.
  - reflexivity.
Defined.

(** C4 (as stated) fails when no role column is set: the descriptor in
    the payload holds the five roles, each with a null. *)
Lemma unset_roles_are_emitted_as_nulls :
  ∃ p ds',
    @construct_payload_configuration reference
      (example_settings (Some (AzureSearch example_azure_search)))
      (AzureSearch example_azure_search) None = (Ok p, ds')
    ∧ roles (AzureSearch example_azure_search) = Some (Roles None None None None None)
    ∧ parameters p !! "fields_mapping"
      = Some (VDict [ ("content_fields", VNone); ("title_field", VNone);
                      ("url_field", VNone); ("filepath_field", VNone);
                      ("vector_fields", VNone) ]).
Proof.
  eexists _, _. split; [reflexivity|]. split; [reflexivity|].
  vm_compute. reflexivity.
Qed.

(** ** Endpoint derivation *)

Lemma synthesized_endpoint_text r :
  "https://" +:+ r +:+ ".openai.azure.com"
  = "https://" +:+ r +:+ "." +:+ well_known_domain.
Proof. reflexivity. Qed.

(** The validator on a record: the three cases of its test. *)
Lemma ensure_endpoint_cases (self : _AzureOpenAISettings.t) :
  _AzureOpenAISettings.ensure_endpoint self =
    if truthy (_AzureOpenAISettings.endpoint self) then Ok self
    else if truthy (_AzureOpenAISettings.resource self) then
      Ok (_AzureOpenAISettings.with_endpoint
            (Some ("https://" +:+ text (_AzureOpenAISettings.resource self)
                   +:+ "." +:+ well_known_domain)) self)
    else Raise _AzureOpenAISettings.no_constructor.
Proof.
  unfold _AzureOpenAISettings.ensure_endpoint.
  destruct (truthy (_AzureOpenAISettings.endpoint self)); [reflexivity|].
  destruct (truthy (_AzureOpenAISettings.resource self)); [|reflexivity].
  by rewrite synthesized_endpoint_text.
Qed.

Lemma with_own_endpoint (self : _AzureOpenAISettings.t) :
  _AzureOpenAISettings.with_endpoint (_AzureOpenAISettings.endpoint self) self = self.
Proof. by destruct self. Qed.



(** ** The authentication descriptor *)

Lemma payload_sql_authentication `{Collaborators} settings s request :
  ∃ p,
    construct_payload_configuration settings (AzureSqlServer s) request
      = (Ok p, AzureSqlServer s)
    ∧ type p = "azure_sql_server"
    ∧ parameters p !! "authentication"
      = VDict <$> _AzureSqlServerSettings.authentication s.
Proof.
  eexists. split; [reflexivity|]. split; [reflexivity|].
  cbn [parameters]. unfold _AzureSqlServerSettings.fields. dump_lookup_here.
  destruct (_AzureSqlServerSettings.authentication s); cbn; [reflexivity|].
  by dump_lookup.
Qed.

Lemma not_ok_bind {A B} (m : result A) (f : A → result B) :
  (∀ a, is_ok (f a) = false) → is_ok (m ≫= f) = false.
Proof. destruct m; simpl; [intros Hf; apply Hf | reflexivity]. Qed.

Lemma validation_only_not_ok {A} (r : result A) :
  validation_only r → is_ok r = false → ∃ loc msg, r = Raise (ValidationError loc msg).
Proof.
  destruct r as [a|[loc msg|msg|msg]]; simpl; try discriminate.
  by eexists _, _.
Qed.

Lemma not_ok_bind_l {A B} (m : result A) (f : A → result B) :
  is_ok m = false → is_ok (m ≫= f) = false.
Proof. by destruct m. Qed.

(** A constructor fails once one of its required variables is absent. *)
Ltac missing_required k :=
  apply not_ok_bind_l;
  rewrite (required_absent _ k) by assumption;
  let rec go := first [ reflexivity | apply not_ok_bind; intros ?; go ] in go.

Section NoSecret.
Context `{Collaborators}.
Variable env : gmap string string.

Lemma cosmos_needs_connection_string :
  env_get env "AZURE_COSMOSDB_MONGO_VCORE_CONNECTION_STRING" = None →
  ∃ loc msg,
    _AzureCosmosDbMongoVcoreSettings.__init__ env = Raise (ValidationError loc msg).
Proof.
  intros Habs.
  apply validation_only_not_ok; [apply cosmos_init_validation_only|].
  unfold _AzureCosmosDbMongoVcoreSettings.__init__,
    _AzureCosmosDbMongoVcoreSettings.validate_fields.
  missing_required "AZURE_COSMOSDB_MONGO_VCORE_CONNECTION_STRING".
Qed.

Lemma elasticsearch_needs_encoded_api_key :
  env_get env "ELASTICSEARCH_ENCODED_API_KEY" = None →
  ∃ loc msg, _ElasticsearchSettings.__init__ env = Raise (ValidationError loc msg).
Proof.
  intros Habs.
  apply validation_only_not_ok; [apply elasticsearch_init_validation_only|].
  unfold _ElasticsearchSettings.__init__, _ElasticsearchSettings.validate_fields.
  missing_required "ELASTICSEARCH_ENCODED_API_KEY".
Qed.

Lemma pinecone_needs_api_key :
  env_get env "PINECONE_API_KEY" = None →
  ∃ loc msg, _PineconeSettings.__init__ env = Raise (ValidationError loc msg).
Proof.
  intros Habs.
  apply validation_only_not_ok; [apply pinecone_init_validation_only|].
  unfold _PineconeSettings.__init__, _PineconeSettings.validate_fields.
  missing_required "PINECONE_API_KEY".
Qed.

Lemma mongo_needs_username_and_password :
  env_get env "MONGODB_USERNAME" = None ∨ env_get env "MONGODB_PASSWORD" = None →
  ∃ loc msg, _MongoDbSettings.__init__ env = Raise (ValidationError loc msg).
Proof.
  intros Habs.
  apply validation_only_not_ok; [apply mongo_init_validation_only|].
  unfold _MongoDbSettings.__init__, _MongoDbSettings.validate_fields.
  destruct Habs as [Habs|Habs];
    [ missing_required "MONGODB_USERNAME" | missing_required "MONGODB_PASSWORD" ].
Qed.

Lemma azure_search_falls_back raw :
  _AzureSearchSettings.validate_fields env = Ok raw →
  env_get env "AZURE_SEARCH_KEY" = None →
  ∃ s, _AzureSearchSettings.__init__ env = Ok s
       ∧ authentication (AzureSearch s) = Some ambient_identity.
Proof.
  intros Hraw Hkey.
  unfold _AzureSearchSettings.__init__. rewrite Hraw.
  cbn [mbind result_bind rbind]. eexists. split; [reflexivity|].
  assert (_AzureSearchSettings.key raw = None) as Hk.
  { unfold _AzureSearchSettings.validate_fields in Hraw.
    repeat match type of Hraw with
    | ?v ≫= _ = Ok _ =>
        destruct v; [|discriminate]; cbn [mbind result_bind rbind] in Hraw
    end.
    injection Hraw as <-. exact Hkey. }
  cbn [authentication].
  unfold _AzureSearchSettings.set_query_type, _AzureSearchSettings.set_fields_mapping,
    _AzureSearchSettings.set_authentication, _AzureSearchSettings.set_endpoint.
  cbn. rewrite Hk. reflexivity.
Qed.

Lemma sql_server_supplied_authentication raw :
  _AzureSqlServerSettings.validate_fields env = Ok raw →
  dict_field env "AZURE_SQL_SERVER_AUTHENTICATION"
  = Ok (_AzureSqlServerSettings.authentication raw).
Proof.
  unfold _AzureSqlServerSettings.validate_fields. intros Hraw.
  repeat match type of Hraw with
  | ?v ≫= _ = Ok _ =>
      let E := fresh "E" in
      destruct v eqn:E; cbn [mbind result_bind rbind] in Hraw; [|discriminate]
  end.
  by injection Hraw as <-.
Qed.

Lemma sql_server_falls_back_when_addressed raw :
  _AzureSqlServerSettings.validate_fields env = Ok raw →
  _AzureSqlServerSettings.connection_string raw = None →
  ∃ s supplied,
    _AzureSqlServerSettings.__init__ env = Ok s
    ∧ dict_field env "AZURE_SQL_SERVER_AUTHENTICATION" = Ok supplied
    ∧ authentication (AzureSqlServer s) =
        if truthy (_AzureSqlServerSettings.database_server raw)
           && truthy (_AzureSqlServerSettings.database_name raw)
           && truthy_int (_AzureSqlServerSettings.port raw)
        then Some ambient_identity
        else supplied.
Proof.
  intros Hraw Hconn.
  unfold _AzureSqlServerSettings.__init__. rewrite Hraw.
  cbn [mbind result_bind rbind]. eexists _, _. split; [reflexivity|].
  split; [exact (sql_server_supplied_authentication raw Hraw)|].
  unfold _AzureSqlServerSettings.construct_authentication.
  rewrite Hconn. cbn [truthy authentication].
  by destruct (_ && _).
Qed.
End NoSecret.

Lemma ml_index_payload_has_no_authentication `{Collaborators} settings s request :
  ∃ p,
    construct_payload_configuration settings (AzureMLIndex s) request
      = (Ok p, AzureMLIndex s)
    ∧ parameters p !! "authentication" = None.
Proof.
  eexists. split; [reflexivity|].
  cbn [parameters]. rewrite dict_update_lookup_own by not_a_search_key.
  unfold _AzureMLIndexSettings.fields. by dump_lookup.
Qed.




(** ** The relational database class without credentials *)

(** C10 (as amended).  The relational database class, its fields
    validated, with no connection string and at least one of database
    server, database name and port unset: the constructor raises nothing
    and returns the validated record as it is, so the authentication
    descriptor is what field validation read for the [authentication]
    field itself, and it is what every payload carries.  When that
    variable is absent the descriptor is unset, neither an explicit
    credential nor the ambient identity, and no payload has an
    [authentication] key. *)
Theorem sql_server_without_credentials `{Collaborators} env raw :
  _AzureSqlServerSettings.validate_fields env = Ok raw →
  _AzureSqlServerSettings.connection_string raw = None →
  _AzureSqlServerSettings.database_server raw = None
  ∨ _AzureSqlServerSettings.database_name raw = None
  ∨ _AzureSqlServerSettings.port raw = None →
  _AzureSqlServerSettings.__init__ env = Ok raw
  ∧ dict_field env "AZURE_SQL_SERVER_AUTHENTICATION"
    = Ok (authentication (AzureSqlServer raw))
  ∧ (∀ settings request, ∃ p,
       construct_payload_configuration settings (AzureSqlServer raw) request
         = (Ok p, AzureSqlServer raw)
       ∧ type p = "azure_sql_server"
       ∧ parameters p !! "authentication"
         = VDict <$> authentication (AzureSqlServer raw))
  ∧ (env_get env "AZURE_SQL_SERVER_AUTHENTICATION" = None →
     authentication (AzureSqlServer raw) = None
     ∧ ∀ settings request, ∃ p,
         construct_payload_configuration settings (AzureSqlServer raw) request
           = (Ok p, AzureSqlServer raw)
         ∧ type p = "azure_sql_server"
         ∧ parameters p !! "authentication" = None).
Proof.
  intros Hraw Hconn Hthree.
  assert (Hsame : _AzureSqlServerSettings.construct_authentication raw = raw).
  { unfold _AzureSqlServerSettings.construct_authentication.
    rewrite Hconn. cbn [truthy].
    destruct Hthree as [-> | [-> | ->]]; cbn [truthy truthy_int];
      rewrite ?andb_false_r; reflexivity. }
  pose proof (sql_server_supplied_authentication env raw Hraw) as Hsup.
  split; [|split; [exact Hsup|split]].
  - unfold _AzureSqlServerSettings.__init__. rewrite Hraw.
    cbn [mbind result_bind rbind]. by rewrite Hsame.
  - intros settings request. apply payload_sql_authentication.
  - intros Habs. rewrite (dict_field_absent env _ Habs) in Hsup.
    injection Hsup as Hnone. cbn [authentication] in Hnone.
    split; [by cbn [authentication]|].
    intros settings request.
    destruct (payload_sql_authentication settings raw request) as (p & Hp & Ht & Ha).
    exists p. by rewrite Ha, <- Hnone.
Qed.

Lemma sql_server_without_credentials_witness :
  @_AzureSqlServerSettings.__init__ reference ∅ = Ok example_sql_server
  ∧ @dict_field reference ∅ "AZURE_SQL_SERVER_AUTHENTICATION"
    = Ok (authentication (AzureSqlServer example_sql_server))
  ∧ (∀ settings request, ∃ p,
       @construct_payload_configuration reference settings
         (AzureSqlServer example_sql_server) request
         = (Ok p, AzureSqlServer example_sql_server)
       ∧ type p = "azure_sql_server"
       ∧ parameters p !! "authentication"
         = VDict <$> authentication (AzureSqlServer example_sql_server))
  ∧ (env_get (∅ : gmap string string) "AZURE_SQL_SERVER_AUTHENTICATION" = None →
     authentication (AzureSqlServer example_sql_server) = None
     ∧ ∀ settings request, ∃ p,
         @construct_payload_configuration reference settings
           (AzureSqlServer example_sql_server) request
           = (Ok p, AzureSqlServer example_sql_server)
         ∧ type p = "azure_sql_server"
         ∧ parameters p !! "authentication" = None).
Proof.
  apply (@sql_server_without_credentials reference ∅ example_sql_server).
  - reflexivity.
  - reflexivity.
  - left. reflexivity.
Defined.

(** C10 (as stated) fails when the [authentication] field is itself
    supplied: with no connection string, no server, no name and no
    port, the constructor keeps the supplied descriptor and the payload
    carries an [authentication] key. *)
Lemma supplied_authentication_is_emitted :
  ∃ s p ds',
    @_AzureSqlServerSettings.__init__ reference_reading_objects
      example_supplied_authentication_env = Ok s
    ∧ _AzureSqlServerSettings.connection_string s = None
    ∧ _AzureSqlServerSettings.database_server s = None
    ∧ _AzureSqlServerSettings.database_name s = None
    ∧ _AzureSqlServerSettings.port s = None
    ∧ authentication (AzureSqlServer s) = Some []
    ∧ @construct_payload_configuration reference_reading_objects
        (example_settings (Some (AzureSqlServer s))) (AzureSqlServer s) None
      = (Ok p, ds')
    ∧ parameters p !! "authentication" = Some (VDict []).
Proof.
  eexists _, _, _. split; [vm_compute; reflexivity|].
  repeat split; vm_compute; reflexivity.
Qed.

(** * Further properties of the settings module *)

(** ** What a returned payload is made of *)

(** The parameters of a returned payload, in terms of the instance the
    call leaves. *)
Lemma payload_shape `{Collaborators} settings ds request p ds' :
  construct_payload_configuration settings ds request = (Ok p, ds') →
  type p = _type ds
  ∧ parameters p =
      if is_sql_server ds then model_dump (own_fields ds')
      else dict_update (model_dump (own_fields ds'))
             (model_dump (_SearchCommonSettings.fields (_AppSettings.search settings))).
Proof.
  destruct ds as [s|s|s|s|s|s|s]; cbn [construct_payload_configuration is_sql_server];
    try (intros [= <- <-]; split; reflexivity).
  destruct (_AzureSearchSettings.construct_payload_configuration _ _ s request)
    as [r s1] eqn:E.
  cbn [prod_map fst snd id]. intros [= -> <-].
  apply azure_search_call_inv in E as (fl & -> & ->). split; reflexivity.
Qed.

Lemma payload_lookup_own `{Collaborators} settings ds request p ds' k :
  construct_payload_configuration settings ds request = (Ok p, ds') →
  k ∉ search_keys →
  parameters p !! k = model_dump (own_fields ds') !! k.
Proof.
  intros Hcall Hk. apply payload_shape in Hcall as [_ ->].
  destruct (is_sql_server ds); [reflexivity|].
  by apply dict_update_lookup_own.
Qed.

(** The instance a call leaves, class by class. *)
Lemma call_leaves `{Collaborators} settings ds request p ds' :
  construct_payload_configuration settings ds request = (Ok p, ds') →
  let ao := _AppSettings.azure_openai settings in
  match ds with
  | AzureSearch s =>
      ∃ fl, ds' = AzureSearch
                    (_AzureSearchSettings.with_embedding_dependency
                       (_AzureOpenAISettings.extract_embedding_dependency ao)
                       (_AzureSearchSettings.with_filter fl s))
  | AzureCosmosDb s =>
      ds' = AzureCosmosDb
              (_AzureCosmosDbMongoVcoreSettings.with_embedding_dependency
                 (_AzureOpenAISettings.extract_embedding_dependency ao) s)
  | Elasticsearch s =>
      ds' = Elasticsearch
              (_ElasticsearchSettings.with_embedding_dependency
                 (if truthy (_ElasticsearchSettings.embedding_model_id s)
                  then Some [ ("type", VStr "model_id");
                              ("model_id",
                               of_opt_str (_ElasticsearchSettings.embedding_model_id s)) ]
                  else _AzureOpenAISettings.extract_embedding_dependency ao) s)
  | Pinecone s =>
      ds' = Pinecone
              (_PineconeSettings.with_embedding_dependency
                 (_AzureOpenAISettings.extract_embedding_dependency ao) s)
  | MongoDb s =>
      ds' = MongoDb
              (_MongoDbSettings.with_embedding_dependency
                 (_AzureOpenAISettings.extract_embedding_dependency ao) s)
  | AzureMLIndex _ | AzureSqlServer _ => ds' = ds
  end.
Proof.
  destruct ds as [s|s|s|s|s|s|s]; cbn [construct_payload_configuration];
    try (intros [= <- <-]; reflexivity).
  destruct (_AzureSearchSettings.construct_payload_configuration _ _ s request)
    as [r s1] eqn:E.
  cbn [prod_map fst snd id]. intros [= -> <-].
  apply azure_search_call_inv in E as (fl & -> & _). by exists fl.
Qed.

(** ** The embedding dependency *)

Lemma dump_optional_dict k (o : option (list (string * value))) fs :
  model_dump (Field k false (of_opt_dict o) :: fs) !! k =
  match o with
  | Some d => Some (VDict d)
  | None => model_dump fs !! k
  end.
Proof. rewrite lookup_model_dump_field. by destruct o. Qed.

Ltac dump_optional_dict_here :=
  dump_lookup; rewrite dump_optional_dict.

Lemma payload_embedding_dependency `{Collaborators} settings ds request p ds' :
  construct_payload_configuration settings ds request = (Ok p, ds') →
  let shared := _AzureOpenAISettings.extract_embedding_dependency
                  (_AppSettings.azure_openai settings) in
  parameters p !! "embedding_dependency" =
    match ds with
    | AzureMLIndex _ | AzureSqlServer _ => None
    | Elasticsearch s =>
        if truthy (_ElasticsearchSettings.embedding_model_id s)
        then Some (VDict [ ("type", VStr "model_id");
                           ("model_id",
                            of_opt_str (_ElasticsearchSettings.embedding_model_id s)) ])
        else VDict <$> shared
    | _ => VDict <$> shared
    end.
Proof.
  intros Hcall shared.
  rewrite (payload_lookup_own _ _ _ _ _ _ Hcall) by not_a_search_key.
  apply call_leaves in Hcall. cbn zeta in Hcall. fold shared in Hcall.
  clearbody shared.
  destruct ds as [s|s|s|s|s|s|s].
  - destruct Hcall as [fl ->]. cbn [own_fields].
    unfold _AzureSearchSettings.fields. dump_optional_dict_here. cbn -[model_dump].
    destruct shared; cbn -[model_dump]; [reflexivity|]. by dump_lookup.
  - subst ds'. cbn [own_fields].
    unfold _AzureCosmosDbMongoVcoreSettings.fields. dump_optional_dict_here. cbn -[model_dump].
    destruct shared; cbn -[model_dump]; [reflexivity|]. by dump_lookup.
  - subst ds'. cbn [own_fields].
    unfold _ElasticsearchSettings.fields. dump_optional_dict_here. cbn -[model_dump].
    destruct (truthy (_ElasticsearchSettings.embedding_model_id s)); [reflexivity|].
    destruct shared; cbn -[model_dump]; [reflexivity|]. by dump_lookup.
  - subst ds'. cbn [own_fields].
    unfold _PineconeSettings.fields. dump_optional_dict_here. cbn -[model_dump].
    destruct shared; cbn -[model_dump]; [reflexivity|]. by dump_lookup.
  - subst ds'. cbn [own_fields]. unfold _AzureMLIndexSettings.fields. by dump_lookup.
  - subst ds'. cbn [own_fields]. unfold _AzureSqlServerSettings.fields. by dump_lookup.
  - subst ds'. cbn [own_fields].
    unfold _MongoDbSettings.fields. dump_optional_dict_here. cbn -[model_dump].
    destruct shared; cbn -[model_dump]; [reflexivity|]. by dump_lookup.
Qed.

Lemma extract_embedding_dependency_None ao :
  _AzureOpenAISettings.extract_embedding_dependency ao = None
  ↔ truthy (_AzureOpenAISettings.embedding_name ao) = false
    ∧ truthy (_AzureOpenAISettings.embedding_endpoint ao) = false.
Proof.
  unfold _AzureOpenAISettings.extract_embedding_dependency.
  destruct (truthy (_AzureOpenAISettings.embedding_name ao));
    destruct (truthy (_AzureOpenAISettings.embedding_endpoint ao));
    destruct (truthy (_AzureOpenAISettings.embedding_key ao));
    split; try done; intros [? ?]; done.
Qed.

(** X1.  The embedding dependency a payload carries comes from the model
    settings alone for the search index, Cosmos, Pinecone and MongoDB
    classes, and for Elasticsearch when it names no local model:
    whatever the instance held before, the entry is what
    [extract_embedding_dependency] resolves, and the key is missing
    exactly when neither an embedding deployment name nor an embedding
    endpoint is set.  The ML index and relational database classes
    never emit the key. *)
Theorem embedding_dependency_from_model_settings `{Collaborators}
    settings ds request p ds' :
  construct_payload_configuration settings ds request = (Ok p, ds') →
  let ao := _AppSettings.azure_openai settings in
  let shared :=
    parameters p !! "embedding_dependency"
      = VDict <$> _AzureOpenAISettings.extract_embedding_dependency ao
    ∧ (parameters p !! "embedding_dependency" = None
       ↔ truthy (_AzureOpenAISettings.embedding_name ao) = false
         ∧ truthy (_AzureOpenAISettings.embedding_endpoint ao) = false) in
  match ds with
  | AzureMLIndex _ | AzureSqlServer _ =>
      parameters p !! "embedding_dependency" = None
  | Elasticsearch s =>
      truthy (_ElasticsearchSettings.embedding_model_id s) = false → shared
  | _ => shared
  end.
Proof.
  intros Hcall ao shared.
  pose proof (payload_embedding_dependency _ _ _ _ _ Hcall) as E.
  cbn zeta in E. fold ao in E.
  assert (Hshared :
    parameters p !! "embedding_dependency"
      = VDict <$> _AzureOpenAISettings.extract_embedding_dependency ao → shared).
  { intros Hp. unfold shared. rewrite Hp. split; [reflexivity|].
    rewrite <- extract_embedding_dependency_None.
    by destruct (_AzureOpenAISettings.extract_embedding_dependency ao). }
  destruct ds as [s|s|s|s|s|s|s]; try exact E; try (apply Hshared, E).
  intros Hid. rewrite Hid in E. apply Hshared, E.
Qed.

Lemma embedding_dependency_from_model_settings_witness :
  ∃ p ds',
    @construct_payload_configuration reference
      (_AppSettings.mk (_BaseSettings.mk None true false false)
         example_openai_embedding example_search
         (Some (AzureSearch example_azure_search)))
      (AzureSearch example_azure_search) None = (Ok p, ds')
    ∧ parameters p !! "embedding_dependency"
      = Some (VDict [ ("type", VStr "deployment_name");
                      ("deployment_name", VStr "ada-002") ]).
Proof.
  eexists _, _. split; [reflexivity|].
  apply (@embedding_dependency_from_model_settings reference
           (_AppSettings.mk (_BaseSettings.mk None true false false)
              example_openai_embedding example_search
              (Some (AzureSearch example_azure_search)))
           (AzureSearch example_azure_search) None _ _ eq_refl).
Defined.

(** X2.  An Elasticsearch instance that names a local embedding model
    carries that model in its payload, whatever the model settings
    resolve and whatever the instance held before. *)
Theorem elasticsearch_prefers_local_model `{Collaborators}
    settings s request p ds' model_id :
  _ElasticsearchSettings.embedding_model_id s = Some model_id →
  nonempty model_id = true →
  construct_payload_configuration settings (Elasticsearch s) request = (Ok p, ds') →
  parameters p !! "embedding_dependency"
  = Some (VDict [ ("type", VStr "model_id"); ("model_id", VStr model_id) ]).
Proof.
  intros Hid Hne Hcall.
  pose proof (payload_embedding_dependency _ _ _ _ _ Hcall) as E.
  cbn beta iota zeta in E. rewrite Hid in E. cbn [truthy of_opt_str] in E.
  by rewrite Hne in E.
Qed.

Lemma elasticsearch_prefers_local_model_witness :
  ∃ p ds',
    @construct_payload_configuration reference
      (_AppSettings.mk (_BaseSettings.mk None true false false)
         example_openai_embedding example_search
         (Some (Elasticsearch example_elasticsearch)))
      (Elasticsearch example_elasticsearch) None = (Ok p, ds')
    ∧ parameters p !! "embedding_dependency"
      = Some (VDict [ ("type", VStr "model_id"); ("model_id", VStr "my-local-model") ]).
Proof.
  eexists _, _. split; [reflexivity|].
  apply (@elasticsearch_prefers_local_model reference
           (_AppSettings.mk (_BaseSettings.mk None true false false)
              example_openai_embedding example_search
              (Some (Elasticsearch example_elasticsearch)))
           example_elasticsearch None _ _ "my-local-model" eq_refl eq_refl eq_refl).
Defined.

(** ** Calling again *)

(** X3.  A call that returned can be repeated: on the instance it left,
    with the same request, [construct_payload_configuration] returns the
    same payload and leaves the instance as it is. *)
Theorem construct_payload_configuration_repeatable `{Collaborators}
    settings ds request p ds' :
  construct_payload_configuration settings ds request = (Ok p, ds') →
  construct_payload_configuration settings ds' request = (Ok p, ds').
Proof.
  destruct ds as [s|s|s|s|s|s|s]; cbn [construct_payload_configuration];
    try (intros [= <- <-]; reflexivity).
  unfold _AzureSearchSettings.construct_payload_configuration,
    _AzureSearchSettings._set_filter_string.
  destruct request as [r|]; [|intros [= <- <-]; reflexivity].
  destruct (truthy (_AzureSearchSettings.permitted_groups_column s)) eqn:Hcol.
  - destruct (negb _) eqn:Htok; [discriminate|].
    intros [= <- <-].
    cbn [construct_payload_configuration].
    unfold _AzureSearchSettings.construct_payload_configuration,
      _AzureSearchSettings._set_filter_string.
    cbn [_AzureSearchSettings.permitted_groups_column
         _AzureSearchSettings.with_embedding_dependency
         _AzureSearchSettings.with_filter _AzureSearchSettings.assign].
    rewrite Hcol, Htok. reflexivity.
  - intros [= <- <-].
    cbn [construct_payload_configuration].
    unfold _AzureSearchSettings.construct_payload_configuration.
    cbn [_AzureSearchSettings.permitted_groups_column
         _AzureSearchSettings.with_embedding_dependency
         _AzureSearchSettings.with_filter _AzureSearchSettings.assign].
    rewrite Hcol. reflexivity.
Qed.

Lemma construct_payload_configuration_repeatable_witness :
  ∃ p ds',
    @construct_payload_configuration reference
      (example_settings (Some (AzureSearch example_azure_search)))
      (AzureSearch example_azure_search) (Some (request_with_token "alice"))
      = (Ok p, ds')
    ∧ @construct_payload_configuration reference
        (example_settings (Some (AzureSearch example_azure_search)))
        ds' (Some (request_with_token "alice")) = (Ok p, ds').
Proof.
  eexists _, _. split; [reflexivity|].
  apply (@construct_payload_configuration_repeatable reference
           (example_settings (Some (AzureSearch example_azure_search)))
           (AzureSearch example_azure_search) (Some (request_with_token "alice"))).
  reflexivity.
Defined.

(** ** The root and its optional groups *)

Lemma try_datasource_class `{Collaborators} env dt ds record :
  _AppSettings.try_datasource env dt = Ok (Some ds, record) →
  ∃ d, dt = Some d ∧ (d, _type ds) ∈ backends.
Proof.
  unfold _AppSettings.try_datasource, backends.
  repeat case_bool_decide; subst;
    try match goal with
    | |- ?v ≫= _ = _ → _ =>
        destruct v; cbn [mbind result_bind rbind]; [|discriminate];
        intros [= <- <-]; eexists; split; [reflexivity|]; cbn [_type];
        set_solver
    end.
  discriminate.
Qed.

(** X4.  Building the root over its three groups never raises, whatever
    the environment and the discriminator hold; the three groups are
    left as they were given; and when a datasource is active it is the
    instance its constructor builds from the environment, of the class
    the discriminator names. *)
Theorem root_always_completes `{Collaborators} env base ao se :
  ∃ app log,
    _AppSettings.__init__ env base ao se = (Ok app, log)
    ∧ _AppSettings.base_settings app = base
    ∧ _AppSettings.azure_openai app = ao
    ∧ _AppSettings.search app = se
    ∧ match _AppSettings.datasource app with
      | None => True
      | Some ds =>
          constructed_from env ds
          ∧ ∃ d, _BaseSettings.datasource_type base = Some d
                 ∧ (d, _type ds) ∈ backends
      end.
Proof.
  unfold _AppSettings.__init__, _AppSettings.set_datasource_settings.
  cbn [_AppSettings.base_settings].
  pose proof (try_datasource_validation_only env (_BaseSettings.datasource_type base)) as Hv.
  destruct (_AppSettings.try_datasource env (_BaseSettings.datasource_type base))
    as [[ds record]|e] eqn:E.
  - eexists _, _. split; [reflexivity|]. repeat split.
    cbn [_AppSettings.datasource _AppSettings.with_datasource].
    destruct ds as [ds|]; [|exact I]. split.
    + eapply try_datasource_constructed, E.
    + eapply try_datasource_class, E.
  - destruct e as [loc msg|msg|msg]; [|discriminate Hv..].
    eexists _, _. split; [reflexivity|]. repeat split.
Qed.

Lemma root_degrades_on_failure `{Collaborators} env base ao se :
  is_ok (_AppSettings.try_datasource env (_BaseSettings.datasource_type base)) = false →
  (_AppSettings.__init__ env base ao se).1 = Ok (_AppSettings.mk base ao se None).
Proof.
  intros Hfail.
  unfold _AppSettings.__init__, _AppSettings.set_datasource_settings.
  cbn [_AppSettings.base_settings].
  pose proof (try_datasource_validation_only env (_BaseSettings.datasource_type base)) as Hv.
  destruct (_AppSettings.try_datasource env (_BaseSettings.datasource_type base))
    as [[ds record]|[loc msg|msg|msg]]; try discriminate; reflexivity.
Qed.

Section MissingRequired.
Context `{Collaborators}.
Variable env : gmap string string.

Lemma try_datasource_fails_without_required d tag k :
  (d, tag) ∈ backends →
  k ∈ required_variables d →
  env_get env k = None →
  is_ok (_AppSettings.try_datasource env (Some d)) = false.
Proof.
  intros Hin Hk Habs. unfold backends in Hin.
  repeat (apply elem_of_cons in Hin as [Hin|Hin];
          [ injection Hin as -> -> | ]);
    [ .. | by apply elem_of_nil in Hin ];
    match type of Hk with
    | _ ∈ required_variables ?d =>
        let r := eval vm_compute in (required_variables d) in
        change (required_variables d) with r in Hk
    end;
    repeat (apply elem_of_cons in Hk as [->|Hk]);
    try (by apply elem_of_nil in Hk);
    unfold _AppSettings.try_datasource; cbn [bool_decide decide_rel];
    apply not_ok_bind_l;
    unfold _AzureSearchSettings.__init__, _AzureSearchSettings.validate_fields,
      _AzureCosmosDbMongoVcoreSettings.__init__,
      _AzureCosmosDbMongoVcoreSettings.validate_fields,
      _ElasticsearchSettings.__init__, _ElasticsearchSettings.validate_fields,
      _PineconeSettings.__init__, _PineconeSettings.validate_fields,
      _AzureMLIndexSettings.__init__, _AzureMLIndexSettings.validate_fields,
      _MongoDbSettings.__init__, _MongoDbSettings.validate_fields;
    match type of Habs with
    | env_get _ ?k = None => missing_required k
    end.
Qed.
End MissingRequired.

(** X5.  A recognized discriminator with one of the variables its
    backend requires absent from the environment: the root is built
    with no datasource. *)
Theorem missing_required_variable_degrades `{Collaborators}
    env base ao se d tag k :
  (d, tag) ∈ backends →
  _BaseSettings.datasource_type base = Some d →
  k ∈ required_variables d →
  env_get env k = None →
  (_AppSettings.__init__ env base ao se).1 = Ok (_AppSettings.mk base ao se None).
Proof.
  intros Hin Hdt Hk Habs.
  apply root_degrades_on_failure. rewrite Hdt.
  exact (try_datasource_fails_without_required env d tag k Hin Hk Habs).
Qed.

Lemma missing_required_variable_degrades_witness :
  (@_AppSettings.__init__ reference example_history_env
     (_BaseSettings.mk (Some "MongoDB") true false false)
     example_openai example_search).1
  = Ok (_AppSettings.mk (_BaseSettings.mk (Some "MongoDB") true false false)
          example_openai example_search None).
Proof.
  apply (@missing_required_variable_degrades reference example_history_env
           (_BaseSettings.mk (Some "MongoDB") true false false)
           example_openai example_search "MongoDB" "mongo_db" "MONGODB_PASSWORD").
  - set_solver.
  - reflexivity.
  - vm_compute. set_solver.
  - reflexivity.
Defined.

(** X6.  The chat-history group is optional: its validator never
    raises, and it assigns a group exactly when the database, the
    account and the conversations container are all set and the feedback
    flag, if set, is a valid boolean; otherwise it assigns nothing. *)
Theorem chat_history_is_optional `{Collaborators} env :
  ∃ assigned,
    _AppSettings.set_chat_history_settings env = Ok assigned
    ∧ (is_Some assigned
       ↔ is_Some (env_get env "AZURE_COSMOSDB_DATABASE")
         ∧ is_Some (env_get env "AZURE_COSMOSDB_ACCOUNT")
         ∧ is_Some (env_get env "AZURE_COSMOSDB_CONVERSATIONS_CONTAINER")
         ∧ is_ok (bool_field env "AZURE_COSMOSDB_ENABLE_FEEDBACK" false) = true).
Proof.
  unfold _AppSettings.set_chat_history_settings, _ChatHistorySettings.__init__, required.
  destruct (env_get env "AZURE_COSMOSDB_DATABASE") as [db|];
    cbn [mbind result_bind rbind].
  2: { eexists. split; [reflexivity|]. split; [by intros [? [=]]|].
       by intros ([? [=]] & _). }
  destruct (env_get env "AZURE_COSMOSDB_ACCOUNT") as [acct|];
    cbn [mbind result_bind rbind].
  2: { eexists. split; [reflexivity|]. split; [by intros [? [=]]|].
       by intros (_ & [? [=]] & _). }
  destruct (env_get env "AZURE_COSMOSDB_CONVERSATIONS_CONTAINER") as [cont|];
    cbn [mbind result_bind rbind].
  2: { eexists. split; [reflexivity|]. split; [by intros [? [=]]|].
       by intros (_ & _ & [? [=]] & _). }
  pose proof (validation_only_bool_field env "AZURE_COSMOSDB_ENABLE_FEEDBACK" false) as Hv.
  destruct (bool_field env "AZURE_COSMOSDB_ENABLE_FEEDBACK" false) as [b|[loc msg|msg|msg]];
    cbn [mbind result_bind rbind]; try discriminate Hv.
  - eexists. split; [reflexivity|]. split; [|by eexists].
    intros _. repeat split; by eexists.
  - eexists. split; [reflexivity|]. split; [by intros [? [=]]|].
    by intros (_ & _ & _ & [=]).
Qed.

(** ** Empty variables *)

Lemma env_get_insert_empty (env : gmap string string) k k' :
  env_get (<[k := ""]> env) k' = env_get (delete k env) k'.
Proof.
  unfold env_get. destruct (decide (k = k')) as [->|Hne].
  - by rewrite lookup_insert_eq, lookup_delete_eq.
  - by rewrite lookup_insert_ne, lookup_delete_ne.
Qed.

Section Extensionality.
Context `{Collaborators}.
Variables e1 e2 : gmap string string.
Hypothesis Hext : ∀ k, env_get e1 k = env_get e2 k.

Ltac rewrite_readers :=
  unfold required, int_field, opt_int_field, bool_field, dict_field, literal_field,
    columns_field, str_field;
  rewrite !Hext; reflexivity.

Lemma azure_search_init_ext :
  _AzureSearchSettings.__init__ e1 = _AzureSearchSettings.__init__ e2.
Proof.
  unfold _AzureSearchSettings.__init__, _AzureSearchSettings.validate_fields.
  rewrite_readers.
Qed.

Lemma cosmos_init_ext :
  _AzureCosmosDbMongoVcoreSettings.__init__ e1 = _AzureCosmosDbMongoVcoreSettings.__init__ e2.
Proof.
  unfold _AzureCosmosDbMongoVcoreSettings.__init__,
    _AzureCosmosDbMongoVcoreSettings.validate_fields.
  rewrite_readers.
Qed.

Lemma elasticsearch_init_ext :
  _ElasticsearchSettings.__init__ e1 = _ElasticsearchSettings.__init__ e2.
Proof.
  unfold _ElasticsearchSettings.__init__, _ElasticsearchSettings.validate_fields.
  rewrite_readers.
Qed.

Lemma pinecone_init_ext :
  _PineconeSettings.__init__ e1 = _PineconeSettings.__init__ e2.
Proof.
  unfold _PineconeSettings.__init__, _PineconeSettings.validate_fields.
  rewrite_readers.
Qed.

Lemma ml_index_init_ext :
  _AzureMLIndexSettings.__init__ e1 = _AzureMLIndexSettings.__init__ e2.
Proof.
  unfold _AzureMLIndexSettings.__init__, _AzureMLIndexSettings.validate_fields.
  rewrite_readers.
Qed.

Lemma sql_server_init_ext :
  _AzureSqlServerSettings.__init__ e1 = _AzureSqlServerSettings.__init__ e2.
Proof.
  unfold _AzureSqlServerSettings.__init__, _AzureSqlServerSettings.validate_fields.
  rewrite_readers.
Qed.

Lemma mongo_init_ext :
  _MongoDbSettings.__init__ e1 = _MongoDbSettings.__init__ e2.
Proof.
  unfold _MongoDbSettings.__init__, _MongoDbSettings.validate_fields.
  rewrite_readers.
Qed.

Lemma try_datasource_ext dt :
  _AppSettings.try_datasource e1 dt = _AppSettings.try_datasource e2 dt.
Proof.
  unfold _AppSettings.try_datasource.
  by rewrite azure_search_init_ext, cosmos_init_ext, elasticsearch_init_ext,
    pinecone_init_ext, ml_index_init_ext, sql_server_init_ext, mongo_init_ext.
Qed.
End Extensionality.

(** X7.  A variable set to the empty text is read as an absent one: the
    root built from an environment in which [k] is empty is the root
    built from the environment without [k], log included. *)
Theorem empty_variable_counts_as_absent `{Collaborators} env k base ao se :
  _AppSettings.__init__ (<[k := ""]> env) base ao se
  = _AppSettings.__init__ (delete k env) base ao se.
Proof.
  unfold _AppSettings.__init__, _AppSettings.set_datasource_settings.
  by rewrite (try_datasource_ext _ _ (env_get_insert_empty env k)).
Qed.

(** ** The search index instance as its constructor leaves it *)

Lemma literal_field_Ok `{Collaborators} env k allowed d v :
  literal_field env k allowed d = Ok v →
  v = default d (env_get env k) ∧ (v = d ∨ v ∈ allowed).
Proof.
  unfold literal_field. destruct (env_get env k) as [raw|]; cbn [default from_option id].
  - case_bool_decide; [|discriminate]. intros [= <-]. auto.
  - intros [= <-]. auto.
Qed.

Lemma azure_search_init_inv `{Collaborators} env s :
  _AzureSearchSettings.__init__ env = Ok s →
  ∃ raw,
    s = _AzureSearchSettings.set_query_type
          (_AzureSearchSettings.set_fields_mapping
             (_AzureSearchSettings.set_authentication
                (_AzureSearchSettings.set_endpoint raw)))
    ∧ env_get env "AZURE_SEARCH_SERVICE" = Some (_AzureSearchSettings.service raw)
    ∧ _AzureSearchSettings.endpoint_suffix raw
      = default "search.windows.net" (env_get env "AZURE_SEARCH_ENDPOINT_SUFFIX")
    ∧ _AzureSearchSettings.key raw = env_get env "AZURE_SEARCH_KEY"
    ∧ _AzureSearchSettings.query_type raw
      = default "simple" (env_get env "AZURE_SEARCH_QUERY_TYPE")
    ∧ (_AzureSearchSettings.query_type raw = "simple"
       ∨ _AzureSearchSettings.query_type raw ∈ _AzureSearchSettings.query_types).
Proof.
  unfold _AzureSearchSettings.__init__. intros Hinit.
  destruct (_AzureSearchSettings.validate_fields env) as [raw|] eqn:Hraw;
    cbn [mbind result_bind rbind] in Hinit; [|discriminate].
  injection Hinit as <-. exists raw. split; [reflexivity|].
  unfold _AzureSearchSettings.validate_fields in Hraw.
  repeat match type of Hraw with
  | ?v ≫= _ = Ok _ =>
      let E := fresh "E" in
      destruct v eqn:E; cbn [mbind result_bind rbind] in Hraw; [|discriminate]
  end.
  injection Hraw as <-.
  cbn [_AzureSearchSettings.service _AzureSearchSettings.endpoint_suffix
       _AzureSearchSettings.key _AzureSearchSettings.query_type].
  match goal with
  | Hq : literal_field _ "AZURE_SEARCH_QUERY_TYPE" _ _ = Ok _ |- _ =>
      apply literal_field_Ok in Hq as [Hq1 Hq2]
  end.
  match goal with
  | Hs : required _ "AZURE_SEARCH_SERVICE" = Ok _ |- _ =>
      unfold required in Hs;
      destruct (env_get env "AZURE_SEARCH_SERVICE"); [|discriminate];
      injection Hs as ->
  end.
  repeat split; auto.
Qed.

Lemma to_snake_query_type q :
  q = "simple" ∨ q ∈ _AzureSearchSettings.query_types →
  to_snake q ∈ snake_query_types.
Proof.
  unfold _AzureSearchSettings.query_types, snake_query_types.
  intros [->|Hq]; [vm_compute; set_solver|].
  repeat (apply elem_of_cons in Hq as [->|Hq]);
    [ .. | by apply elem_of_nil in Hq ]; vm_compute; set_solver.
Qed.

Lemma payload_query_type `{Collaborators} ao se s request p s' :
  _AzureSearchSettings.construct_payload_configuration ao se s request = (Ok p, s') →
  parameters p !! "query_type" = Some (VStr (_AzureSearchSettings.query_type s)).
Proof.
  intros (fl & -> & ->)%azure_search_call_inv.
  cbn [parameters]. rewrite dict_update_lookup_own by not_a_search_key.
  unfold _AzureSearchSettings.fields. dump_lookup_here. reflexivity.
Qed.

Lemma payload_endpoint `{Collaborators} ao se s request p s' :
  _AzureSearchSettings.construct_payload_configuration ao se s request = (Ok p, s') →
  parameters p !! "endpoint" = VStr <$> _AzureSearchSettings.endpoint s.
Proof.
  intros (fl & -> & ->)%azure_search_call_inv.
  cbn [parameters]. rewrite dict_update_lookup_own by not_a_search_key.
  unfold _AzureSearchSettings.fields. dump_lookup_here.
  cbn -[model_dump].
  destruct (_AzureSearchSettings.endpoint s); cbn -[model_dump]; [reflexivity|].
  by dump_lookup.
Qed.

Lemma validators_query_type raw :
  _AzureSearchSettings.query_type
    (_AzureSearchSettings.set_query_type
       (_AzureSearchSettings.set_fields_mapping
          (_AzureSearchSettings.set_authentication
             (_AzureSearchSettings.set_endpoint raw))))
  = to_snake (_AzureSearchSettings.query_type raw).
Proof.
  unfold _AzureSearchSettings.set_authentication.
  by destruct (truthy _).
Qed.

Lemma validators_endpoint raw :
  _AzureSearchSettings.endpoint
    (_AzureSearchSettings.set_query_type
       (_AzureSearchSettings.set_fields_mapping
          (_AzureSearchSettings.set_authentication
             (_AzureSearchSettings.set_endpoint raw))))
  = Some ("https://" +:+ _AzureSearchSettings.service raw +:+ "."
          +:+ _AzureSearchSettings.endpoint_suffix raw).
Proof.
  unfold _AzureSearchSettings.set_authentication.
  by destruct (truthy _).
Qed.

(** X8.  The query type of a search index instance is normalized at
    construction: it is the snake-case form of the configured text (of
    [simple] when none is configured), never one of the two camel-case
    literals, and that is the text every payload carries. *)
Theorem azure_search_query_type_is_normalized `{Collaborators} env s :
  _AzureSearchSettings.__init__ env = Ok s →
  _AzureSearchSettings.query_type s
    = to_snake (default "simple" (env_get env "AZURE_SEARCH_QUERY_TYPE"))
  ∧ _AzureSearchSettings.query_type s ∈ snake_query_types
  ∧ ∀ ao se request p s',
      _AzureSearchSettings.construct_payload_configuration ao se s request = (Ok p, s') →
      parameters p !! "query_type" = Some (VStr (_AzureSearchSettings.query_type s)).
Proof.
  intros (raw & -> & _ & _ & _ & Hq & Hin)%azure_search_init_inv.
  split; [|split].
  - by rewrite validators_query_type, Hq.
  - rewrite validators_query_type. by apply to_snake_query_type.
  - intros ao se request p s'. apply payload_query_type.
Qed.

Lemma azure_search_query_type_is_normalized_witness :
  ∃ s,
    @_AzureSearchSettings.__init__ reference example_keyed_env = Ok s
    ∧ _AzureSearchSettings.query_type s = "vector_semantic_hybrid".
Proof.
  eexists. split; [vm_compute; reflexivity|].
  exact (proj1 (@azure_search_query_type_is_normalized reference example_keyed_env _
                  eq_refl)).
Defined.

(** X9.  The endpoint of a search index instance is always derived from
    the service name and the endpoint suffix (by default
    [search.windows.net]); a value supplied for the endpoint itself is
    overwritten, and the derived one is what every payload carries. *)
Theorem azure_search_endpoint_is_derived `{Collaborators} env s :
  _AzureSearchSettings.__init__ env = Ok s →
  ∃ service,
    env_get env "AZURE_SEARCH_SERVICE" = Some service
    ∧ _AzureSearchSettings.endpoint s
      = Some ("https://" +:+ service +:+ "."
              +:+ default "search.windows.net" (env_get env "AZURE_SEARCH_ENDPOINT_SUFFIX"))
    ∧ ∀ ao se request p s',
        _AzureSearchSettings.construct_payload_configuration ao se s request = (Ok p, s') →
        parameters p !! "endpoint" = VStr <$> _AzureSearchSettings.endpoint s.
Proof.
  intros (raw & -> & Hsvc & Hsuffix & _)%azure_search_init_inv.
  exists (_AzureSearchSettings.service raw). split; [exact Hsvc|]. split.
  - by rewrite validators_endpoint, Hsuffix.
  - intros ao se request p s'. apply payload_endpoint.
Qed.

Lemma azure_search_endpoint_is_derived_witness :
  ∃ s,
    @_AzureSearchSettings.__init__ reference example_keyed_env = Ok s
    ∧ env_get example_keyed_env "AZURE_SEARCH_ENDPOINT" = Some "https://elsewhere.example"
    ∧ _AzureSearchSettings.endpoint s = Some "https://svc.search.windows.net".
Proof.
  eexists. split; [vm_compute; reflexivity|]. split; [reflexivity|].
  destruct (@azure_search_endpoint_is_derived reference example_keyed_env _ eq_refl)
    as (service & Hsvc & Hep & _).
  injection Hsvc as <-. exact Hep.
Defined.

(** ** What a payload never holds *)

Lemma own_dump_lacks_excluded ds k :
  k ∈ excluded_names → model_dump (own_fields ds) !! k = None.
Proof.
  unfold excluded_names. intros Hk.
  repeat (apply elem_of_cons in Hk as [->|Hk]);
    [ .. | by apply elem_of_nil in Hk ];
    destruct ds; cbn [own_fields];
    unfold _AzureSearchSettings.fields, _AzureCosmosDbMongoVcoreSettings.fields,
      _ElasticsearchSettings.fields, _PineconeSettings.fields,
      _AzureMLIndexSettings.fields, _AzureSqlServerSettings.fields,
      _MongoDbSettings.fields;
    by dump_lookup.
Qed.

Lemma excluded_names_not_search_keys k : k ∈ excluded_names → k ∉ search_keys.
Proof.
  unfold excluded_names. intros Hk.
  repeat (apply elem_of_cons in Hk as [->|Hk]);
    [ .. | by apply elem_of_nil in Hk ]; not_a_search_key.
Qed.

(** X10.  No payload holds, among its parameters, a key named after a
    field declared [exclude=True] in any of the seven classes: raw
    secrets and connection strings, the service name, the role columns,
    the permitted-groups column and the filter reach a payload only
    through the descriptors derived from them. *)
Theorem excluded_fields_are_never_emitted `{Collaborators}
    settings ds request p ds' k :
  construct_payload_configuration settings ds request = (Ok p, ds') →
  k ∈ excluded_names →
  parameters p !! k = None.
Proof.
  intros Hcall Hk.
  rewrite (payload_lookup_own _ _ _ _ _ _ Hcall)
    by (by apply excluded_names_not_search_keys).
  by apply own_dump_lacks_excluded.
Qed.

Lemma excluded_fields_are_never_emitted_witness :
  ∃ p ds',
    @construct_payload_configuration reference
      (example_settings (Some (Elasticsearch example_elasticsearch)))
      (Elasticsearch example_elasticsearch) None = (Ok p, ds')
    ∧ parameters p !! "encoded_api_key" = None.
Proof.
  eexists _, _. split; [reflexivity|].
  apply (@excluded_fields_are_never_emitted reference
           (example_settings (Some (Elasticsearch example_elasticsearch)))
           (Elasticsearch example_elasticsearch) None _ _ "encoded_api_key" eq_refl).
  vm_compute. set_solver.
Defined.

(** ** Explicit secrets *)

Lemma payload_authentication `{Collaborators} settings ds request p ds' :
  construct_payload_configuration settings ds request = (Ok p, ds') →
  parameters p !! "authentication" = VDict <$> authentication ds.
Proof.
  intros Hcall.
  rewrite (payload_lookup_own _ _ _ _ _ _ Hcall) by not_a_search_key.
  apply call_leaves in Hcall. cbn zeta in Hcall.
  destruct ds as [s|s|s|s|s|s|s]; cbn [authentication].
  - destruct Hcall as [fl ->]. cbn [own_fields].
    unfold _AzureSearchSettings.fields. dump_optional_dict_here. cbn -[model_dump].
    destruct (_AzureSearchSettings.authentication s); cbn -[model_dump];
      [reflexivity|]. by dump_lookup.
  - subst ds'. cbn [own_fields].
    unfold _AzureCosmosDbMongoVcoreSettings.fields. dump_optional_dict_here.
    cbn -[model_dump].
    destruct (_AzureCosmosDbMongoVcoreSettings.authentication s); cbn -[model_dump];
      [reflexivity|]. by dump_lookup.
  - subst ds'. cbn [own_fields].
    unfold _ElasticsearchSettings.fields. dump_optional_dict_here. cbn -[model_dump].
    destruct (_ElasticsearchSettings.authentication s); cbn -[model_dump];
      [reflexivity|]. by dump_lookup.
  - subst ds'. cbn [own_fields].
    unfold _PineconeSettings.fields. dump_optional_dict_here. cbn -[model_dump].
    destruct (_PineconeSettings.authentication s); cbn -[model_dump];
      [reflexivity|]. by dump_lookup.
  - subst ds'. cbn [own_fields]. unfold _AzureMLIndexSettings.fields. by dump_lookup.
  - subst ds'. cbn [own_fields].
    unfold _AzureSqlServerSettings.fields. dump_optional_dict_here. cbn -[model_dump].
    destruct (_AzureSqlServerSettings.authentication s); cbn -[model_dump];
      [reflexivity|]. by dump_lookup.
  - subst ds'. cbn [own_fields].
    unfold _MongoDbSettings.fields. dump_optional_dict_here. cbn -[model_dump].
    destruct (_MongoDbSettings.authentication s); cbn -[model_dump];
      [reflexivity|]. by dump_lookup.
Qed.

Lemma constructed_authentication `{Collaborators} env ds :
  constructed_from env ds →
  match ds with
  | AzureSearch s =>
      authentication ds =
        if truthy (_AzureSearchSettings.key s)
        then Some [ ("type", VStr "api_key");
                    ("key", of_opt_str (_AzureSearchSettings.key s)) ]
        else Some ambient_identity
  | AzureCosmosDb s =>
      authentication ds =
        Some [ ("type", VStr "connection_string");
               ("connection_string",
                VStr (_AzureCosmosDbMongoVcoreSettings.connection_string s)) ]
  | Elasticsearch s =>
      authentication ds =
        Some [ ("type", VStr "encoded_api_key");
               ("encoded_api_key", VStr (_ElasticsearchSettings.encoded_api_key s)) ]
  | Pinecone s =>
      authentication ds =
        Some [ ("type", VStr "api_key"); ("api_key", VStr (_PineconeSettings.api_key s)) ]
  | MongoDb s =>
      authentication ds =
        Some [ ("type", VStr "username_and_password");
               ("username", VStr (_MongoDbSettings.username s));
               ("password", VStr (_MongoDbSettings.password s)) ]
  | AzureSqlServer s =>
      truthy (_AzureSqlServerSettings.connection_string s) = true →
      authentication ds =
        Some [ ("type", VStr "connection_string");
               ("connection_string",
                of_opt_str (_AzureSqlServerSettings.connection_string s)) ]
  | AzureMLIndex _ => authentication ds = None
  end.
Proof.
  destruct ds as [s|s|s|s|s|s|s]; cbn [constructed_from authentication]; intros Hinit;
    try reflexivity; open_init Hinit; try reflexivity.
  - unfold _AzureSearchSettings.set_authentication.
    destruct (truthy (_AzureSearchSettings.key raw)) eqn:Hk;
      cbn; rewrite ?Hk; cbn; rewrite ?Hk; reflexivity.
  - unfold _AzureSqlServerSettings.construct_authentication.
    destruct (truthy (_AzureSqlServerSettings.connection_string raw)) eqn:Hc;
      [reflexivity|].
    destruct (_ && _); cbn; rewrite ?Hc; cbn; rewrite ?Hc; discriminate.
Qed.

(** X11.  A datasource built by its constructor carries the explicit
    secret it was configured with in the [authentication] entry of its
    payload: the key of the search index class when one is set, the
    connection string of the Cosmos class, the encoded key of
    Elasticsearch, the key of Pinecone, the user name and password of
    MongoDB, and for the relational database class the connection
    string whenever one is set, server, name and port notwithstanding. *)
Theorem payload_carries_explicit_secret `{Collaborators}
    env settings ds request p ds' :
  constructed_from env ds →
  construct_payload_configuration settings ds request = (Ok p, ds') →
  match ds with
  | AzureSearch s =>
      truthy (_AzureSearchSettings.key s) = true →
      parameters p !! "authentication" =
        Some (VDict [ ("type", VStr "api_key");
                      ("key", of_opt_str (_AzureSearchSettings.key s)) ])
  | AzureCosmosDb s =>
      parameters p !! "authentication" =
        Some (VDict [ ("type", VStr "connection_string");
                      ("connection_string",
                       VStr (_AzureCosmosDbMongoVcoreSettings.connection_string s)) ])
  | Elasticsearch s =>
      parameters p !! "authentication" =
        Some (VDict [ ("type", VStr "encoded_api_key");
                      ("encoded_api_key",
                       VStr (_ElasticsearchSettings.encoded_api_key s)) ])
  | Pinecone s =>
      parameters p !! "authentication" =
        Some (VDict [ ("type", VStr "api_key");
                      ("api_key", VStr (_PineconeSettings.api_key s)) ])
  | MongoDb s =>
      parameters p !! "authentication" =
        Some (VDict [ ("type", VStr "username_and_password");
                      ("username", VStr (_MongoDbSettings.username s));
                      ("password", VStr (_MongoDbSettings.password s)) ])
  | AzureSqlServer s =>
      truthy (_AzureSqlServerSettings.connection_string s) = true →
      parameters p !! "authentication" =
        Some (VDict [ ("type", VStr "connection_string");
                      ("connection_string",
                       of_opt_str (_AzureSqlServerSettings.connection_string s)) ])
  | AzureMLIndex _ => parameters p !! "authentication" = None
  end.
Proof.
  intros Hinit Hcall.
  rewrite (payload_authentication _ _ _ _ _ Hcall).
  pose proof (constructed_authentication env ds Hinit) as Ha.
  destruct ds as [s|s|s|s|s|s|s]; try (by rewrite Ha).
  - intros Hk. rewrite Ha, Hk. reflexivity.
  - intros Hc. by rewrite (Ha Hc).
Qed.

Lemma payload_carries_explicit_secret_witness :
  ∃ s p ds',
    @_AzureSearchSettings.__init__ reference example_keyed_env = Ok s
    ∧ @construct_payload_configuration reference
        (example_settings (Some (AzureSearch s))) (AzureSearch s) None = (Ok p, ds')
    ∧ parameters p !! "authentication"
      = Some (VDict [ ("type", VStr "api_key"); ("key", VStr "s3cret") ]).
Proof.
  eexists _, _, _. split; [vm_compute; reflexivity|]. split; [reflexivity|].
  exact (@payload_carries_explicit_secret reference example_keyed_env
           (example_settings (Some (AzureSearch _))) (AzureSearch _) None _ _
           eq_refl eq_refl eq_refl).
Defined.

(** ** The search settings group *)

Lemma search_init_include_contexts `{Collaborators} env se :
  _SearchCommonSettings.__init__ env = Ok se →
  _SearchCommonSettings.include_contexts se
  = match env_get env "SEARCH_INCLUDE_CONTEXTS" with
    | None => Some ["citations"; "intent"]
    | Some raw => _SearchCommonSettings.split_contexts (decode_complex raw)
    end.
Proof.
  unfold _SearchCommonSettings.__init__. intros Hinit.
  repeat match type of Hinit with
  | ?v ≫= _ = Ok _ =>
      destruct v; cbn [mbind result_bind rbind] in Hinit; [|discriminate]
  end.
  injection Hinit as <-. reflexivity.
Qed.

Lemma split_contexts_is_Some `{Collaborators} v :
  is_Some (_SearchCommonSettings.split_contexts v).
Proof.
  unfold _SearchCommonSettings.split_contexts.
  destruct v; try (by eexists). by destruct (nonempty s); eexists.
Qed.

(** X12.  The search settings built from the environment always hold a
    list of contexts: [citations] and [intent] when the variable is
    absent, and never nothing, since the validator falls back to that
    default for any value that is not a non-empty text.  Every payload
    that merges these settings therefore has an [include_contexts]
    entry holding a list. *)
Theorem include_contexts_is_always_set `{Collaborators} env se :
  _SearchCommonSettings.__init__ env = Ok se →
  is_Some (_SearchCommonSettings.include_contexts se)
  ∧ (env_get env "SEARCH_INCLUDE_CONTEXTS" = None →
     _SearchCommonSettings.include_contexts se = Some ["citations"; "intent"])
  ∧ ∀ settings ds request p ds',
      _AppSettings.search settings = se →
      is_sql_server ds = false →
      construct_payload_configuration settings ds request = (Ok p, ds') →
      ∃ l, _SearchCommonSettings.include_contexts se = Some l
           ∧ parameters p !! "include_contexts" = Some (VList (VStr <$> l)).
Proof.
  intros Hinit. apply search_init_include_contexts in Hinit.
  assert (Hsome : is_Some (_SearchCommonSettings.include_contexts se)).
  { rewrite Hinit. destruct (env_get env "SEARCH_INCLUDE_CONTEXTS");
      [apply split_contexts_is_Some | by eexists]. }
  split; [exact Hsome|]. split.
  - intros Habs. by rewrite Hinit, Habs.
  - intros settings ds request p ds' Hse Hsql Hcall.
    destruct Hsome as [l Hl]. exists l. split; [exact Hl|].
    apply payload_shape in Hcall as [_ ->]. rewrite Hsql, Hse.
    unfold dict_update. apply lookup_union_Some_l.
    unfold _SearchCommonSettings.fields.
    rewrite lookup_model_dump_ne by discriminate.
    rewrite lookup_model_dump_ne by discriminate.
    rewrite lookup_model_dump_field. by rewrite Hl.
Qed.

Lemma include_contexts_is_always_set_witness :
  is_Some (_SearchCommonSettings.include_contexts example_search)
  ∧ (env_get (∅ : gmap string string) "SEARCH_INCLUDE_CONTEXTS" = None →
     _SearchCommonSettings.include_contexts example_search = Some ["citations"; "intent"])
  ∧ ∀ settings ds request p ds',
      _AppSettings.search settings = example_search →
      is_sql_server ds = false →
      @construct_payload_configuration reference settings ds request = (Ok p, ds') →
      ∃ l, _SearchCommonSettings.include_contexts example_search = Some l
           ∧ parameters p !! "include_contexts" = Some (VList (VStr <$> l)).
Proof.
  apply (@include_contexts_is_always_set reference ∅ example_search).
  reflexivity.
Defined.

(** ** The instance across calls *)

(** X13.  The filter is kept on the instance: after a call that computed
    the filter of one caller, a call made without a request returns a
    payload and leaves that caller's filter on the instance. *)
Theorem filter_outlives_its_request `{Collaborators} ao se s r tok :
  truthy (_AzureSearchSettings.permitted_groups_column s) = true →
  usable_token (Some r) = Some tok →
  ∃ p1 s1 p2 s2,
    _AzureSearchSettings.construct_payload_configuration ao se s (Some r) = (Ok p1, s1)
    ∧ _AzureSearchSettings.construct_payload_configuration ao se s1 None = (Ok p2, s2)
    ∧ _AzureSearchSettings.filter s2 = Some (generateFilterString tok).
Proof.
  intros Hcol Htok.
  eexists _, _, _, _. split; [exact (call_with_token ao se s r tok Hcol Htok)|].
  split; reflexivity.
Qed.

Lemma filter_outlives_its_request_witness :
  ∃ p1 s1 p2 s2,
    @_AzureSearchSettings.construct_payload_configuration reference
      example_openai example_search example_azure_search
      (Some (request_with_token "alice")) = (Ok p1, s1)
    ∧ @_AzureSearchSettings.construct_payload_configuration reference
        example_openai example_search s1 None = (Ok p2, s2)
    ∧ _AzureSearchSettings.filter s2 = Some (@generateFilterString reference "alice").
Proof.
  apply (@filter_outlives_its_request reference example_openai example_search
           example_azure_search (request_with_token "alice") "alice"); reflexivity.
Defined.

(** X14.  Whether it returns or raises, a call leaves the instance of
    the same class with every field as it was except [filter] and
    [embedding_dependency], the only two it writes; the ML index and
    relational database instances are left unchanged altogether.  In
    particular the type tag, the authentication descriptor, the field
    mapping and the role columns are as they were. *)
Theorem construct_payload_configuration_frame `{Collaborators} settings ds request :
  let ds' := (construct_payload_configuration settings ds request).2 in
  differs_only_in_transient_fields ds ds'
  ∧ _type ds' = _type ds
  ∧ authentication ds' = authentication ds
  ∧ fields_mapping ds' = fields_mapping ds
  ∧ roles ds' = roles ds.
Proof.
  destruct ds as [s|s|s|s|s|s|s]; cbn [construct_payload_configuration];
    try (cbn; repeat split; reflexivity).
  unfold _AzureSearchSettings.construct_payload_configuration.
  destruct (match request with Some _ => _ | None => _ end) as [s1|e] eqn:E;
    [|cbn; repeat split; try reflexivity; by destruct s].
  assert (∃ fl, s1 = _AzureSearchSettings.with_filter fl s) as [fl ->].
  { destruct request as [r|].
    - destruct (truthy _).
      + destruct (_AzureSearchSettings._set_filter_string s r) as [fl|]; [|discriminate].
        injection E as <-. by exists fl.
      + injection E as <-. exists (_AzureSearchSettings.filter s). by destruct s.
    - injection E as <-. exists (_AzureSearchSettings.filter s). by destruct s. }
  cbn. repeat split; reflexivity.
Qed.
